(** * The API controller of the admin panel: dispatch and authorisation

    A shallow embedding of [src/backend/controllers/api-controller.ts]
    (class [ApiController]: [getActionContext], [search], [resourceAction],
    [recordAction], [dashboard]) and the properties of its dispatch layer.

    The controller is glue between routing input and pluggable collaborators
    (the admin instance, resources, actions, records, the populator).  The
    collaborators are not part of the controller: they are an interface
    ([Collaborators]) of state transformers over an abstract [World] that may
    return or throw.  The controller itself is written in a state-and-error
    monad whose state is the world together with the log of the collaborator
    calls the controller has made, in the order it made them. *)

From Stdlib Require Import ZArith Sorted.
From stdpp Require Import base strings list gmap.

Local Open Scope string_scope.
Local Open Scope list_scope.
Local Set Warnings "-register-all".

(** ** JavaScript values *)

(** What a handler or a serialiser hands back.  Numbers are the integers and
    NaN: the controller only ever asks whether a value is truthy. *)
Inductive JsValue : Type :=
| JUndefined
| JNull
| JBool (b : bool)
| JNumber (z : Z)
| JNaN
| JString (s : string)
| JArray (items : list JsValue)
| JObject (props : list (string * JsValue)).

(** [ToBoolean]: what [if (v)], [!v] and [v && w] test. *)
Definition truthy (v : JsValue) : bool :=
  match v with
  | JUndefined | JNull | JNaN => false
  | JBool b => b
  | JNumber z => negb (z =? 0)%Z
  | JString s => negb (String.eqb s "")
  | JArray _ | JObject _ => true
  end.

(** ** Errors and results *)

Inductive Error : Type :=
| ForbiddenError (actionName resourceId : string)
| ConfigurationError (message source : string)
| NotFoundError (message : string)
| TypeError (property : string)
| Thrown (value : JsValue).

Inductive Res (A : Type) : Type :=
| Ok (a : A)
| Throw (e : Error).
Arguments Ok {A} a.
Arguments Throw {A} e.

(** Own properties of an object, first binding of the key. *)
Fixpoint own_property (props : list (string * JsValue)) (key : string) : JsValue :=
  match props with
  | [] => JUndefined
  | (k, v) :: rest => if String.eqb k key then v else own_property rest key
  end.

(** [v.key] (or [v[key]]).  Reading a property of [undefined] or [null] is a
    TypeError, recorded with the property asked for (the wording of the
    message is the engine's); primitives, strings and arrays only answer to
    [length] here. *)
Definition get_prop (v : JsValue) (key : string) : Res JsValue :=
  match v with
  | JUndefined | JNull => Throw (TypeError key)
  | JObject props => Ok (own_property props key)
  | JString s => Ok (if String.eqb key "length" then JNumber (Z.of_nat (String.length s)) else JUndefined)
  | JArray items => Ok (if String.eqb key "length" then JNumber (Z.of_nat (length items)) else JUndefined)
  | JBool _ | JNumber _ | JNaN => Ok JUndefined
  end.

(** [obj[key]] where [key] may be [undefined]: the key is converted to a
    string first. *)
Definition property_key (key : option string) : string :=
  match key with
  | Some k => k
  | None => "undefined"
  end.

(** ** Requests *)

Record Params : Type := {
  resourceId : string;
  recordId : option string;
  action : option string;
  query : option string
}.

Record ActionRequest : Type := {
  params : Params;
  payload : JsValue;
  method : string
}.

Inductive Direction : Type := asc | desc.

Record SortOptions : Type := { sortBy : string; direction : Direction }.

Record FindOptions : Type := { limit : nat; sort : SortOptions }.

Record PropertyDecorator : Type := { property_name : string }.

Section Controller.

(** The objects the controller is handed are opaque references. *)
Context {World AdminBro CurrentAdmin BaseResource Action BaseRecord Response : Type}.

(** A collaborator call: it sees and may change the world, and returns or
    throws. *)
Definition Eff (A : Type) : Type := World -> Res A * World.

(** A slot that holds a record: [findOne] answers a record or [null], and
    taking the first element of an empty array gives [undefined]. *)
Inductive RecordRef : Type :=
| RNull
| RUndefined
| RObj (r : BaseRecord).

(** [resource.decorate()]: the registered actions by name (the object's own
    entries) and the title property. *)
Record ResourceDecorator : Type := {
  actions : gmap string Action;
  titleProperty : PropertyDecorator
}.

(** [new Filter(filters, resource)] *)
Record Filter : Type := {
  filters : list (string * string);
  filter_resource : BaseResource
}.

(** [new ViewHelpers(admin)] *)
Record ViewHelpers : Type := { helpers_admin : AdminBro }.

(** The context an action handler receives.  [ctx_action] is [None] when
    [actions[actionName]] is [undefined]; [ctx_record] is [None] when the
    context has no [record] key. *)
Record ActionContext : Type := {
  ctx_resource : BaseResource;
  ctx_action : option Action;
  ctx_h : ViewHelpers;
  ctx_currentAdmin : CurrentAdmin;
  ctx__admin : AdminBro;
  ctx_record : option RecordRef
}.

(** [{ ...actionContext, record }] *)
Definition with_record (c : ActionContext) (r : RecordRef) : ActionContext :=
  {| ctx_resource := ctx_resource c;
     ctx_action := ctx_action c;
     ctx_h := ctx_h c;
     ctx_currentAdmin := ctx_currentAdmin c;
     ctx__admin := ctx__admin c;
     ctx_record := Some r |}.

(** The context the dashboard handler receives. *)
Record PageContext : Type := {
  page_h : ViewHelpers;
  page_currentAdmin : CurrentAdmin;
  page__admin : AdminBro
}.

Definition PageHandler : Type :=
  ActionRequest -> Response -> PageContext -> Eff JsValue.

(** [admin.options.dashboard], itself optional, with its optional handler. *)
Record DashboardOptions : Type := { dashboard_handler : option PageHandler }.

Record AdminBroOptions : Type := { options_dashboard : option DashboardOptions }.

(** The methods the controller calls on the objects it is handed.  The
    getters ([id()], [decorate()], [name], [options]) are read-only. *)
Class Collaborators : Type := {
  AdminBro_findResource : AdminBro -> string -> Eff BaseResource;
  AdminBro_options : AdminBro -> AdminBroOptions;
  BaseResource_id : BaseResource -> string;
  BaseResource_decorate : BaseResource -> ResourceDecorator;
  BaseResource_find : BaseResource -> Filter -> FindOptions -> Eff (list BaseRecord);
  BaseResource_findOne : BaseResource -> option string -> Eff RecordRef;
  populator : list RecordRef -> Eff (list RecordRef);
  Action_name : Action -> string;
  Action_isAccessible : Action -> CurrentAdmin -> RecordRef -> Eff bool;
  Action_handler : Action -> ActionRequest -> Response -> ActionContext -> Eff JsValue;
  BaseRecord_toJSON : BaseRecord -> CurrentAdmin -> Eff JsValue
}.

(** ** The log of collaborator calls *)

Inductive Event : Type :=
| CallFindResource (admin : AdminBro) (id : string)
| CallFind (resource : BaseResource) (flt : Filter) (opts : FindOptions)
| CallFindOne (resource : BaseResource) (id : option string)
| CallPopulator (records : list RecordRef)
| CallIsAccessible (act : Action) (who : CurrentAdmin) (target : RecordRef)
| CallHandler (act : Action) (request : ActionRequest) (response : Response)
              (context : ActionContext)
| CallToJSON (rec : BaseRecord) (who : CurrentAdmin)
| CallDashboardHandler (request : ActionRequest) (response : Response)
                       (context : PageContext).

Definition is_handler_call (e : Event) : bool :=
  match e with CallHandler _ _ _ _ => true | _ => false end.

Definition is_isAccessible_call (e : Event) : bool :=
  match e with CallIsAccessible _ _ _ => true | _ => false end.

Definition is_find_call (e : Event) : bool :=
  match e with CallFind _ _ _ => true | _ => false end.

(** ** The controller's monad *)

Record St : Type := { world : World; trace : list Event }.

Definition M (A : Type) : Type := St -> Res A * St.

Definition ret {A} (a : A) : M A := fun st => (Ok a, st).

Definition throw {A} (e : Error) : M A := fun st => (Throw e, st).

Definition bind {A B} (m : M A) (k : A -> M B) : M B :=
  fun st =>
    match m st with
    | (Ok a, st') => k a st'
    | (Throw e, st') => (Throw e, st')
    end.

(** A call out of the controller: logged, then run on the world. *)
Definition call {A} (ev : Event) (c : Eff A) : M A :=
  fun st =>
    let (r, w) := c (world st) in
    (r, {| world := w; trace := trace st ++ [ev] |}).

(** A step that cannot touch the world. *)
Definition lift {A} (r : Res A) : M A := fun st => (r, st).

(** [records.map(f)] with an [f] that may throw. *)
Fixpoint mapM {A B} (f : A -> M B) (l : list A) : M (list B) :=
  match l with
  | [] => ret []
  | x :: rest =>
      bind (f x) (fun y => bind (mapM f rest) (fun ys => ret (y :: ys)))
  end.

(** Running the controller on a world, from an empty log. *)
Definition run {A} (m : M A) (w : World) : Res A * St :=
  m {| world := w; trace := [] |}.

Definition result {A} (out : Res A * St) : Res A := fst out.
Definition calls {A} (out : Res A * St) : list Event := trace (snd out).
Definition final {A} (out : Res A * St) : World := world (snd out).

Notation "'let*' x ':=' m 'in' k" := (bind m (fun x => k))
  (at level 10, x name, m at level 100, k at level 200).

(** ** The controller *)

Context {collaborators : Collaborators}.

Record ApiController : Type := {
  _admin : AdminBro;
  currentAdmin : CurrentAdmin
}.

(** Reading [member] of a looked-up action: a TypeError when the action is
    [undefined]. *)
Definition member_of (act : option Action) (member : string) : M Action :=
  match act with
  | Some a => ret a
  | None => throw (TypeError member)
  end.

Definition getActionContext (this : ApiController) (request : ActionRequest)
  : M ActionContext :=
  let resourceId := resourceId (params request) in
  let actionName := action (params request) in
  let h := {| helpers_admin := _admin this |} in
  let* resource := call (CallFindResource (_admin this) resourceId)
                   (AdminBro_findResource (_admin this) resourceId) in
  let action := actions (BaseResource_decorate resource) !! property_key actionName in
  ret {| ctx_resource := resource;
         ctx_action := action;
         ctx_h := h;
         ctx_currentAdmin := currentAdmin this;
         ctx__admin := _admin this;
         ctx_record := None |}.

Definition search (this : ApiController) (request : ActionRequest) : M JsValue :=
  let queryString := query (params request) in
  let* resource := call (CallFindResource (_admin this) (resourceId (params request)))
                   (AdminBro_findResource (_admin this) (resourceId (params request))) in
  let decorated := BaseResource_decorate resource in
  let* listAction := member_of (actions decorated !! "list") "isAccessible" in
  let* accessible := call (CallIsAccessible listAction (currentAdmin this) RNull)
                     (Action_isAccessible listAction (currentAdmin this) RNull) in
  if negb accessible then
    throw (ForbiddenError "list" (BaseResource_id resource))
  else
    let titlePropertyName := property_name (titleProperty decorated) in
    let filters :=
      match queryString with
      | Some q => if truthy (JString q) then [(titlePropertyName, q)] else []
      | None => []
      end in
    let flt := {| filters := filters; filter_resource := resource |} in
    let opts := {| limit := 50;
                   sort := {| sortBy := titlePropertyName; direction := asc |} |} in
    let* records := call (CallFind resource flt opts) (BaseResource_find resource flt opts) in
    let* jsons := mapM (fun record =>
                     call (CallToJSON record (currentAdmin this))
                          (BaseRecord_toJSON record (currentAdmin this)))
                  records in
    ret (JObject [("records", JArray jsons)]).

Definition resourceAction (this : ApiController) (request : ActionRequest)
    (response : Response) : M JsValue :=
  let* actionContext := getActionContext this request in
  let* act := member_of (ctx_action actionContext) "isAccessible" in
  let* accessible := call (CallIsAccessible act (currentAdmin this) RNull)
                     (Action_isAccessible act (currentAdmin this) RNull) in
  if negb accessible then
    throw (ForbiddenError (Action_name act) (BaseResource_id (ctx_resource actionContext)))
  else
    call (CallHandler act request response actionContext)
         (Action_handler act request response actionContext).

(** [const [record] = records] *)
Definition first_element (records : list RecordRef) : RecordRef :=
  match records with
  | [] => RUndefined
  | r :: _ => r
  end.

(** [a && b] with [b] evaluated only when [a] is truthy. *)
Definition js_and (a : JsValue) (b : Res JsValue) : Res JsValue :=
  if truthy a then b else Ok a.

(** [jsonWithRecord && jsonWithRecord.record && jsonWithRecord.record.recordActions] *)
Definition recordActions_of (jsonWithRecord : JsValue) : Res JsValue :=
  match js_and jsonWithRecord (get_prop jsonWithRecord "record") with
  | Ok lhs =>
      js_and lhs
        (match get_prop jsonWithRecord "record" with
         | Ok record => get_prop record "recordActions"
         | Throw e => Throw e
         end)
  | Throw e => Throw e
  end.

Definition recordAction (this : ApiController) (request : ActionRequest)
    (response : Response) : M JsValue :=
  let recordId := recordId (params request) in
  let* actionContext := getActionContext this request in
  let* record := call (CallFindOne (ctx_resource actionContext) recordId)
                 (BaseResource_findOne (ctx_resource actionContext) recordId) in
  let* populated := call (CallPopulator [record]) (populator [record]) in
  let record := first_element populated in
  let* act := member_of (ctx_action actionContext) "isAccessible" in
  let* accessible := call (CallIsAccessible act (currentAdmin this) record)
                     (Action_isAccessible act (currentAdmin this) record) in
  if negb accessible then
    throw (ForbiddenError (Action_name act) (BaseResource_id (ctx_resource actionContext)))
  else
    let* jsonWithRecord := call (CallHandler act request response (with_record actionContext record))
                           (Action_handler act request response
                              (with_record actionContext record)) in
    let* checked := lift (recordActions_of jsonWithRecord) in
    if truthy checked then ret jsonWithRecord
    else throw (ConfigurationError
                  "handler of a recordAction should return a RecordJSON object"
                  "Action.handler").

Definition dashboard (this : ApiController) (request : ActionRequest)
    (response : Response) : M JsValue :=
  let h := {| helpers_admin := _admin this |} in
  let handler :=
    match options_dashboard (AdminBro_options (_admin this)) with
    | Some d => dashboard_handler d
    | None => None
    end in
  match handler with
  | Some handler =>
      let context := {| page_h := h;
                        page_currentAdmin := currentAdmin this;
                        page__admin := _admin this |} in
      call (CallDashboardHandler request response context)
           (handler request response context)
  | None =>
      ret (JObject [("message",
             JString "You can override this method by setting up dashboard.handler fuction in AdminBro options")])
  end.

(** ** What the properties are stated with *)

(** [record.toJSON(admin)] of each record in turn, each on the world the
    previous one left; the first failure ends it. *)
Fixpoint toJSON_each (who : CurrentAdmin) (records : list BaseRecord) (w : World)
  : Res (list JsValue) * World :=
  match records with
  | [] => (Ok [], w)
  | r :: rest =>
      match BaseRecord_toJSON r who w with
      | (Ok j, w') =>
          match toJSON_each who rest w' with
          | (Ok js, w'') => (Ok (j :: js), w'')
          | (Throw e, w'') => (Throw e, w'')
          end
      | (Throw e, w') => (Throw e, w')
      end
  end.

(** Modelled from the spec: the storage layer behind [Resource.find(filter,
    {limit, sort})] (query execution, sorting, pagination), which is not part
    of the controller's source.  Its side of the bargain: whatever [find]
    returns has at most [limit] records ("limit is a fixed ceiling") and is
    ordered by [sortBy] in the direction asked, for an order [ord] on records
    by property name. *)
Definition find_honours_options
    (ord : string -> Direction -> BaseRecord -> BaseRecord -> Prop) : Prop :=
  forall resource flt opts w records w',
    BaseResource_find resource flt opts w = (Ok records, w') ->
    length records <= limit opts /\
    Sorted (ord (sortBy (sort opts)) (direction (sort opts))) records.

(** The search filter in the specification's words: the query term under the
    title property when the term is non-empty, the empty filter otherwise. *)
Definition query_filter (title : string) (queryTerm : option string)
  : list (string * string) :=
  match queryTerm with
  | Some term => if decide (term = "") then [] else [(title, term)]
  | None => []
  end.

(** Whether an object has the key at all, whatever the value. *)
Definition has_property (v : JsValue) (key : string) : bool :=
  match v with
  | JObject props => existsb (fun kv => String.eqb (fst kv) key) props
  | _ => false
  end.

(** [v.key] where reading it is defined, [undefined] elsewhere. *)
Definition field (v : JsValue) (key : string) : JsValue :=
  match get_prop v key with
  | Ok x => x
  | Throw _ => JUndefined
  end.

(** The handler contract in the specification's words: the result has a
    [record] field, and that field has a [recordActions] field. *)
Definition contains_recordActions_field (json : JsValue) : bool :=
  has_property json "record" && has_property (field json "record") "recordActions".

(** The handler contract as a truthiness test, link by link. *)
Definition recordActions_truthy (json : JsValue) : bool :=
  truthy json && truthy (field json "record")
  && truthy (field (field json "record") "recordActions").

(** The search result shape in the specification's words: an object with
    exactly the keys [id] and [title]. *)
Definition SearchRecord_shape (v : JsValue) : bool :=
  match v with
  | JObject [(k1, _); (k2, _)] =>
      (String.eqb k1 "id" && String.eqb k2 "title")
      || (String.eqb k1 "title" && String.eqb k2 "id")
  | _ => false
  end.

(** The dashboard's fallback payload in the specification's words. *)
Definition spec_dashboard_fallback : JsValue :=
  JObject [("message",
    JString "You can override this method by setting up dashboard.handler function in options")].

Definition is_NotFoundError {A} (r : Res A) : bool :=
  match r with
  | Throw (NotFoundError _) => true
  | _ => false
  end.

(** The context [getActionContext] builds for a resource and a looked-up
    action. *)
Definition context_of (this : ApiController) (resource : BaseResource)
    (act : option Action) : ActionContext :=
  {| ctx_resource := resource;
     ctx_action := act;
     ctx_h := {| helpers_admin := _admin this |};
     ctx_currentAdmin := currentAdmin this;
     ctx__admin := _admin this;
     ctx_record := None |}.

(** ** The constructor, and what further properties are stated with *)

(** The first argument of the constructor: an object with the admin
    instance. *)
Record ControllerOptions : Type := { admin : AdminBro }.

(** [constructor({ admin }, currentAdmin)] *)
Definition constructor (options : ControllerOptions) (currentAdmin : CurrentAdmin)
  : ApiController :=
  {| _admin := admin options; currentAdmin := currentAdmin |}.

(** A collaborator call that leaves the world as it found it, whatever it
    answers. *)
Definition read_only {A} (c : Eff A) : Prop := forall w, snd (c w) = w.

(** A value that is not an object: [undefined], [null], a boolean, a number
    or a string. *)
Definition is_primitive (v : JsValue) : bool :=
  match v with
  | JArray _ | JObject _ => false
  | _ => true
  end.

End Controller.

Arguments Eff : clear implicits.
Arguments M : clear implicits.
Arguments St : clear implicits.
Arguments Event : clear implicits.
Arguments RecordRef : clear implicits.
Arguments ActionContext : clear implicits.
Arguments ApiController : clear implicits.
Arguments Collaborators : clear implicits.
Arguments ResourceDecorator : clear implicits.
Arguments Filter : clear implicits.
Arguments ViewHelpers : clear implicits.
Arguments PageContext : clear implicits.
Arguments DashboardOptions : clear implicits.
Arguments AdminBroOptions : clear implicits.
Arguments ControllerOptions : clear implicits.

(** * A small installation to run the controller on *)

Module Example.

(** The world is the number of writes made so far. *)
Definition World : Type := nat.

Record User : Type := { user_id : string; user_name : string }.

Definition ann : User := {| user_id := "1"; user_name := "Ann A" |}.
Definition anna : User := {| user_id := "2"; user_name := "Anna B" |}.
Definition bob : User := {| user_id := "3"; user_name := "Bob C" |}.

Definition registered : list string := ["users"; "orders"].

(** Modelled from the spec: [findResource(id) -> Resource | throws
    NotFoundError]; the admin instance is not part of the controller's
    source.  A resource is known by its id. *)
Definition findResource (_ : unit) (id : string) : Eff World string :=
  fun w =>
    if bool_decide (id ∈ registered) then (Ok id, w)
    else (Throw (NotFoundError id), w).

(** Every resource has the built-in [list] and [show], and a few custom
    actions. *)
Definition decorate (_ : string) : ResourceDecorator string :=
  {| actions := list_to_map [("list", "list"); ("show", "show"); ("export", "export");
                             ("approve", "approve"); ("archive", "archive");
                             ("crash", "crash")];
     titleProperty := {| property_name := "name" |} |}.

(** The stored users are kept in name order; a non-empty filter selects the
    two whose name starts with "Ann". *)
Definition select (flt : Filter string) (d : Direction) : list User :=
  let found :=
    match filters flt with
    | [] => [ann; anna; bob]
    | _ => [ann; anna]
    end in
  match d with
  | asc => found
  | desc => rev found
  end.

Definition find (_ : string) (flt : Filter string) (opts : FindOptions)
  : Eff World (list User) :=
  fun w => (Ok (take (limit opts) (select flt (direction (sort opts)))), w).

Definition findOne (_ : string) (id : option string) : Eff World (RecordRef User) :=
  fun w =>
    match id with
    | Some "1" => (Ok (RObj ann), w)
    | Some "2" => (Ok (RObj anna), w)
    | Some "3" => (Ok (RObj bob), w)
    | _ => (Ok RNull, w)
    end.

(** Nothing to populate: the records come back as they are. *)
Definition populate (records : list (RecordRef User)) : Eff World (list (RecordRef User)) :=
  fun w => (Ok records, w).

(** Only the administrator may do anything. *)
Definition isAccessible (_ : string) (who : string) (_ : RecordRef User) : Eff World bool :=
  fun w => (Ok (String.eqb who "admin"), w).

Definition record_json (target : option (RecordRef User)) (recordActions : JsValue)
  : JsValue :=
  match target with
  | Some (RObj u) =>
      JObject [("record", JObject [("id", JString (user_id u));
                                   ("title", JString (user_name u));
                                   ("recordActions", recordActions)])]
  | _ => JNull
  end.

(** [show] answers a RecordJSON; [approve] forgets the record actions;
    [archive] sets them to [null]; [export] answers a string; [crash]
    throws. *)
Definition handler (act : string) (_ : ActionRequest) (_ : unit)
    (context : ActionContext unit string string string User) : Eff World JsValue :=
  fun w =>
    match act with
    | "show" => (Ok (record_json (ctx_record context) (JArray [JString "show"])), w)
    | "approve" => (Ok (JObject [("record", JObject [("id", JString "1")])]), S w)
    | "archive" => (Ok (record_json (ctx_record context) JNull), S w)
    | "export" => (Ok (JString "id,name"), w)
    | "crash" => (Throw (Thrown (JString "boom")), w)
    | _ => (Ok JUndefined, w)
    end.

(** Modelled from the spec: [Record.toJSON(actor) -> serialized fields]; the
    record class is not part of the controller's source.  A record serialises
    to a RecordJSON: its parameters, id, title and record actions. *)
Definition toJSON (u : User) (_ : string) : Eff World JsValue :=
  fun w =>
    (Ok (JObject [("params", JObject [("name", JString (user_name u))]);
                  ("id", JString (user_id u));
                  ("title", JString (user_name u));
                  ("recordActions", JArray [])]), w).

Definition collaborators : Collaborators World unit string string string User unit :=
  {| AdminBro_findResource := findResource;
     AdminBro_options _ := {| options_dashboard := Some {| dashboard_handler := None |} |};
     BaseResource_id r := r;
     BaseResource_decorate := decorate;
     BaseResource_find := find;
     BaseResource_findOne := findOne;
     populator := populate;
     Action_name a := a;
     Action_isAccessible := isAccessible;
     Action_handler := handler;
     BaseRecord_toJSON := toJSON |}.

(** Users in the order of their names. *)
Definition by_name (_ : string) (d : Direction) (a b : User) : Prop :=
  match d with
  | asc => String.leb (user_name a) (user_name b) = true
  | desc => String.leb (user_name b) (user_name a) = true
  end.

Definition admin : ApiController unit string := {| _admin := tt; currentAdmin := "admin" |}.
Definition guest : ApiController unit string := {| _admin := tt; currentAdmin := "guest" |}.

Definition request_for (resource : string) (record act term : option string)
  : ActionRequest :=
  {| params := {| resourceId := resource; recordId := record; action := act;
                  query := term |};
     payload := JUndefined;
     method := "get" |}.

End Example.

(** * An installation whose collaborators can fail *)

Module Lab.

(** What goes wrong, if anything. *)
Inductive Fault : Type :=
| NoFault
| FindResourceFails
| NoListAction
| CheckFails
| FindFails
| SecondSerialisationFails
| FindOneFails
| PopulatorFails
| PopulatorAnswersNothing
| HandlerFails.

Definition is_fault (f g : Fault) : bool :=
  match f, g with
  | NoFault, NoFault | FindResourceFails, FindResourceFails
  | NoListAction, NoListAction | CheckFails, CheckFails | FindFails, FindFails
  | SecondSerialisationFails, SecondSerialisationFails
  | FindOneFails, FindOneFails | PopulatorFails, PopulatorFails
  | PopulatorAnswersNothing, PopulatorAnswersNothing
  | HandlerFails, HandlerFails => true
  | _, _ => false
  end.

(** The world counts the round trips to the store. *)
Definition World : Type := nat.

Definition failure (what : string) : Error := Thrown (JString what).

Definition findResource (f : Fault) (_ : unit) (id : string) : Eff World string :=
  fun w =>
    if is_fault f FindResourceFails then (Throw (failure "registry unavailable"), w)
    else (Ok id, w).

Definition decorate (f : Fault) (_ : string) : ResourceDecorator string :=
  {| actions :=
       if is_fault f NoListAction then list_to_map [("show", "show")]
       else list_to_map [("list", "list"); ("show", "show"); ("export", "export")];
     titleProperty := {| property_name := "name" |} |}.

Definition find (f : Fault) (_ : string) (_ : Filter string) (opts : FindOptions)
  : Eff World (list Example.User) :=
  fun w =>
    if is_fault f FindFails then (Throw (failure "store unavailable"), S w)
    else (Ok (take (limit opts) [Example.ann; Example.anna; Example.bob]), S w).

Definition findOne (f : Fault) (_ : string) (id : option string)
  : Eff World (RecordRef Example.User) :=
  fun w =>
    if is_fault f FindOneFails then (Throw (failure "store unavailable"), S w)
    else
      match id with
      | Some "1" => (Ok (RObj Example.ann), S w)
      | _ => (Ok RNull, S w)
      end.

Definition populate (f : Fault) (records : list (RecordRef Example.User))
  : Eff World (list (RecordRef Example.User)) :=
  fun w =>
    if is_fault f PopulatorFails then (Throw (failure "relation unavailable"), S w)
    else if is_fault f PopulatorAnswersNothing then (Ok [], S w)
    else (Ok records, S w).

Definition isAccessible (f : Fault) (_ : string) (who : string)
    (_ : RecordRef Example.User) : Eff World bool :=
  fun w =>
    if is_fault f CheckFails then (Throw (failure "policy unavailable"), w)
    else (Ok (String.eqb who "admin"), w).

Definition handler (f : Fault) (act : string) (request : ActionRequest) (response : unit)
    (context : ActionContext unit string string string Example.User) : Eff World JsValue :=
  fun w =>
    if is_fault f HandlerFails then (Throw (failure "handler broke"), S w)
    else
      match act with
      | "show" =>
          (Ok (JObject [("record", JObject [("id", JString "1");
                                            ("recordActions", JArray [])])]), w)
      | _ => (Ok (JString "done"), w)
      end.

Definition toJSON (f : Fault) (u : Example.User) (who : string) : Eff World JsValue :=
  fun w =>
    if is_fault f SecondSerialisationFails && String.eqb (Example.user_id u) "2"
    then (Throw (failure "cannot serialise"), w)
    else Example.toJSON u who w.

(** The dashboard handler counts the widgets of the current admin. *)
Definition widgets (_ : ActionRequest) (_ : unit) (context : PageContext unit string)
  : Eff World JsValue :=
  fun w =>
    (Ok (JObject [("widgets",
                   JNumber (if String.eqb (page_currentAdmin context) "admin" then 3 else 0))]),
     S w).

Definition collaborators (f : Fault)
  : Collaborators World unit string string string Example.User unit :=
  {| AdminBro_findResource := findResource f;
     AdminBro_options _ :=
       {| options_dashboard := Some {| dashboard_handler := Some widgets |} |};
     BaseResource_id r := r;
     BaseResource_decorate := decorate f;
     BaseResource_find := find f;
     BaseResource_findOne := findOne f;
     populator := populate f;
     Action_name a := a;
     Action_isAccessible := isAccessible f;
     Action_handler := handler f;
     BaseRecord_toJSON := toJSON f |}.

End Lab.

(** * Properties *)

Section Properties.

Context {World AdminBro CurrentAdmin BaseResource Action BaseRecord Response : Type}.
Context {collaborators :
  Collaborators World AdminBro CurrentAdmin BaseResource Action BaseRecord Response}.

Local Abbreviation State :=
  (St World AdminBro CurrentAdmin BaseResource Action BaseRecord Response).
Local Abbreviation Controller := (ApiController AdminBro CurrentAdmin).

(** Unfolding one controller operation down to its collaborator calls. *)
Ltac unfold_controller :=
  unfold run, result, calls, final, search, resourceAction, recordAction, dashboard,
    getActionContext, bind, call, lift, member_of, ret, throw;
  cbn [world trace fst snd].

(** ** Authorisation *)

(** C1. For every actor and every resolved action: when the action's
    [isAccessible] answers false (asked about [null] in [resourceAction], about
    the loaded and populated record in [recordAction]), the operation throws
    [ForbiddenError] with that action's name and the resource's id, and the
    controller never calls the action's handler. *)
Theorem inaccessible_action_is_forbidden
    (this : Controller) request response (w w1 : World) resource act
    (Hresource : AdminBro_findResource (_admin this) (resourceId (params request)) w
                 = (Ok resource, w1))
    (Haction : actions (BaseResource_decorate resource)
                 !! property_key (action (params request)) = Some act) :
  (forall w2,
     Action_isAccessible act (currentAdmin this) RNull w1 = (Ok false, w2) ->
     let out := run (resourceAction this request response) w in
     result out = Throw (ForbiddenError (Action_name act) (BaseResource_id resource))
     /\ existsb is_handler_call (calls out) = false)
  /\
  (forall record w2 populated w3 w4,
     BaseResource_findOne resource (recordId (params request)) w1 = (Ok record, w2) ->
     populator [record] w2 = (Ok populated, w3) ->
     Action_isAccessible act (currentAdmin this) (first_element populated) w3
       = (Ok false, w4) ->
     let out := run (recordAction this request response) w in
     result out = Throw (ForbiddenError (Action_name act) (BaseResource_id resource))
     /\ existsb is_handler_call (calls out) = false).
Proof.
  split.
  - intros w2 Hdenied. unfold_controller.
    rewrite Hresource. cbn. rewrite Haction. cbn. rewrite Hdenied. cbn. auto.
  - intros record w2 populated w3 w4 Hfound Hpopulated Hdenied. unfold_controller.
    rewrite Hresource. cbn. rewrite Hfound. cbn. rewrite Hpopulated. cbn.
    rewrite Haction. cbn. rewrite Hdenied. cbn. auto.
Qed.

(** X1. The other way round, in every run of [resourceAction] and of
    [recordAction]: a handler call in the log means the resource was found,
    the action is registered, and the check before it answered true. *)
Lemma handler_runs_only_after_access_is_granted
    (this : Controller) request response (w : World) :
  (existsb is_handler_call (calls (run (resourceAction this request response) w)) = true ->
   exists resource w1 act w2,
     AdminBro_findResource (_admin this) (resourceId (params request)) w
       = (Ok resource, w1)
     /\ actions (BaseResource_decorate resource)
          !! property_key (action (params request)) = Some act
     /\ Action_isAccessible act (currentAdmin this) RNull w1 = (Ok true, w2))
  /\
  (existsb is_handler_call (calls (run (recordAction this request response) w)) = true ->
   exists resource w1 act record w2 populated w3 w4,
     AdminBro_findResource (_admin this) (resourceId (params request)) w
       = (Ok resource, w1)
     /\ actions (BaseResource_decorate resource)
          !! property_key (action (params request)) = Some act
     /\ BaseResource_findOne resource (recordId (params request)) w1 = (Ok record, w2)
     /\ populator [record] w2 = (Ok populated, w3)
     /\ Action_isAccessible act (currentAdmin this) (first_element populated) w3
        = (Ok true, w4)).
Proof.
  split; unfold_controller.
  - destruct (AdminBro_findResource _ _ w) as [[resource|e] w1] eqn:Hresource; cbn;
      [|discriminate].
    destruct (actions _ !! _) as [act|] eqn:Haction; cbn; [|discriminate].
    destruct (Action_isAccessible act _ _ w1) as [[[|]|e] w2] eqn:Hchecked; cbn;
      try discriminate.
    intros _. exists resource, w1, act, w2. auto.
  - destruct (AdminBro_findResource _ _ w) as [[resource|e] w1] eqn:Hresource; cbn;
      [|discriminate].
    destruct (BaseResource_findOne resource _ w1) as [[record|e] w2] eqn:Hfound; cbn;
      [|discriminate].
    destruct (populator [record] w2) as [[populated|e] w3] eqn:Hpopulated; cbn;
      [|discriminate].
    destruct (actions _ !! _) as [act|] eqn:Haction; cbn; [|discriminate].
    destruct (Action_isAccessible act _ _ w3) as [[[|]|e] w4] eqn:Hchecked; cbn;
      try discriminate.
    intros _. exists resource, w1, act, record, w2, populated, w3, w4. auto.
Qed.

(** C9. On an accessible action [resourceAction] is a pass-through: whatever
    the handler returns is the result, unchanged and unexamined, and whatever
    the handler throws is thrown, unchanged; the handler is called once. *)
Theorem resourceAction_passes_handler_outcome_through
    (this : Controller) request response (w w1 w2 : World) resource act
    (Hresource : AdminBro_findResource (_admin this) (resourceId (params request)) w
                 = (Ok resource, w1))
    (Haction : actions (BaseResource_decorate resource)
                 !! property_key (action (params request)) = Some act)
    (Hallowed : Action_isAccessible act (currentAdmin this) RNull w1 = (Ok true, w2)) :
  let out := run (resourceAction this request response) w in
  let context := context_of this resource (Some act) in
  let handled := Action_handler act request response context w2 in
  result out = fst handled
  /\ final out = snd handled
  /\ calls out = [CallFindResource (_admin this) (resourceId (params request));
                  CallIsAccessible act (currentAdmin this) RNull;
                  CallHandler act request response context].
Proof.
  unfold_controller.
  rewrite Hresource. cbn. rewrite Haction. cbn. rewrite Hallowed. cbn.
  unfold context_of.
  destruct (Action_handler act request response _ w2) as [outcome w3].
  cbn. auto.
Qed.

(** ** Search *)

(** C5. When the actor fails the accessibility check of the resource's [list]
    action (asked about [null]), [search] throws [ForbiddenError] with action
    name [list] and the resource's id, and [find] is never called. *)
Theorem search_without_list_access_is_forbidden
    (this : Controller) request (w w1 w2 : World) resource listAction
    (Hresource : AdminBro_findResource (_admin this) (resourceId (params request)) w
                 = (Ok resource, w1))
    (Hlist : actions (BaseResource_decorate resource) !! "list" = Some listAction)
    (Hdenied : Action_isAccessible listAction (currentAdmin this) RNull w1
               = (Ok false, w2)) :
  let out := run (search this request) w in
  result out = Throw (ForbiddenError "list" (BaseResource_id resource))
  /\ existsb is_find_call (calls out) = false
  /\ calls out = [CallFindResource (_admin this) (resourceId (params request));
                  CallIsAccessible listAction (currentAdmin this) RNull].
Proof.
  unfold_controller.
  rewrite Hresource. cbn. rewrite Hlist. cbn. rewrite Hdenied. cbn. auto.
Qed.

(** *** Serialising the records found *)

Lemma mapM_toJSON_outcome who records (st st' : State) r :
  mapM (fun record => call (CallToJSON record who) (BaseRecord_toJSON record who))
       records st = (r, st') ->
  toJSON_each who records (world st) = (r, world st').
Proof.
  revert st st' r. induction records as [|x rest IH]; intros st st' r; cbn.
  - unfold ret. intros [= <- <-]. reflexivity.
  - unfold bind, call.
    destruct (BaseRecord_toJSON x who (world st)) as [[j|e] w']; cbn.
    + destruct (mapM _ rest _) as [[js|e] st''] eqn:Hrest;
        apply IH in Hrest; cbn in Hrest; rewrite Hrest;
        unfold ret; intros [= <- <-]; reflexivity.
    + intros [= <- <-]. reflexivity.
Qed.

Lemma mapM_toJSON_calls who records (st st' : State) r :
  mapM (fun record => call (CallToJSON record who) (BaseRecord_toJSON record who))
       records st = (r, st') ->
  exists n,
    trace st' = trace st ++ map (fun x => CallToJSON x who) (take n records)
    /\ (forall jsons, r = Ok jsons -> n = length records).
Proof.
  revert st st' r. induction records as [|x rest IH]; intros st st' r; cbn.
  - unfold ret. intros [= <- <-]. exists 0. cbn. rewrite app_nil_r. auto.
  - unfold bind, call.
    destruct (BaseRecord_toJSON x who (world st)) as [[j|e] w']; cbn.
    + destruct (mapM _ rest _) as [[js|e] st''] eqn:Hrest;
        apply IH in Hrest as (n & Htrace & Hall); cbn in Htrace;
        unfold ret; intros [= <- <-]; exists (S n); cbn;
        rewrite Htrace, <- app_assoc; (split; [reflexivity|]).
      * intros ? _. f_equal. eapply Hall. reflexivity.
      * discriminate.
    + intros [= <- <-]. exists 1. cbn. rewrite take_0.
      split; [reflexivity | discriminate].
Qed.

Lemma toJSON_each_pointwise who records w jsons w' :
  toJSON_each who records w = (Ok jsons, w') ->
  Forall2 (fun r j => exists w0 w1, BaseRecord_toJSON r who w0 = (Ok j, w1)) records jsons.
Proof.
  revert w jsons. induction records as [|r rest IH]; intros w jsons; cbn.
  - intros [= <- <-]. constructor.
  - destruct (BaseRecord_toJSON r who w) as [[j|e] w1] eqn:Hr; [|discriminate].
    destruct (toJSON_each who rest w1) as [[js|e] w2] eqn:Hrest; [|discriminate].
    intros [= <- <-]. constructor; eauto.
Qed.

Lemma toJSON_calls_are_no_find_calls who (records : list BaseRecord) :
  List.filter is_find_call (map (fun r => CallToJSON r who) records)
  = ([] : list (Event AdminBro CurrentAdmin BaseResource Action BaseRecord Response)).
Proof. induction records; cbn; auto. Qed.

Lemma query_filter_truthy title (queryString : option string) :
  match queryString with
  | Some q => if truthy (JString q) then [(title, q)] else []
  | None => []
  end = query_filter title queryString.
Proof.
  destruct queryString as [q|]; cbn; [|reflexivity].
  destruct (decide (q = "")) as [->|Hne]; [reflexivity|].
  apply String.eqb_neq in Hne. rewrite Hne. reflexivity.
Qed.

(** What [search] does once the [list] action is accessible. *)
Lemma search_allowed
    (this : Controller) request (w w1 w2 : World) resource listAction
    (Hresource : AdminBro_findResource (_admin this) (resourceId (params request)) w
                 = (Ok resource, w1))
    (Hlist : actions (BaseResource_decorate resource) !! "list" = Some listAction)
    (Hallowed : Action_isAccessible listAction (currentAdmin this) RNull w1
                = (Ok true, w2)) :
  let title := property_name (titleProperty (BaseResource_decorate resource)) in
  let flt := {| filters := query_filter title (query (params request));
                filter_resource := resource |} in
  let opts := {| limit := 50; sort := {| sortBy := title; direction := asc |} |} in
  let who := currentAdmin this in
  let prefix := [CallFindResource (_admin this) (resourceId (params request));
                 CallIsAccessible listAction who RNull;
                 CallFind resource flt opts] in
  let out := run (search this request) w in
  match BaseResource_find resource flt opts w2 with
  | (Throw e, w3) => result out = Throw e /\ final out = w3 /\ calls out = prefix
  | (Ok records, w3) =>
      match toJSON_each who records w3 with
      | (Ok jsons, w4) =>
          result out = Ok (JObject [("records", JArray jsons)])
          /\ final out = w4
          /\ calls out = prefix ++ map (fun r => CallToJSON r who) records
      | (Throw e, w4) =>
          result out = Throw e
          /\ final out = w4
          /\ exists n, calls out = prefix ++ map (fun r => CallToJSON r who) (take n records)
      end
  end.
Proof.
  unfold_controller.
  rewrite Hresource. cbn. rewrite Hlist. cbn. rewrite Hallowed. cbn.
  rewrite query_filter_truthy.
  destruct (BaseResource_find resource _ _ w2) as [[records|e] w3] eqn:Hfind; cbn; [|auto].
  destruct (mapM _ records _) as [r st'] eqn:Hmap.
  pose proof (mapM_toJSON_outcome _ _ _ _ _ Hmap) as Hout.
  pose proof (mapM_toJSON_calls _ _ _ _ _ Hmap) as (n & Htrace & Hall).
  cbn in Hout, Htrace. rewrite Hout.
  destruct r as [jsons|e]; cbn; rewrite Htrace.
  - rewrite (Hall jsons eq_refl), firstn_all. auto.
  - eauto.
Qed.

Lemma toJSON_each_read_only who records (json_of : BaseRecord -> JsValue) w :
  (forall r w0, In r records -> BaseRecord_toJSON r who w0 = (Ok (json_of r), w0)) ->
  toJSON_each who records w = (Ok (map json_of records), w).
Proof.
  induction records as [|x rest IH]; intros Hpure; cbn; [reflexivity|].
  rewrite Hpure by (left; reflexivity).
  rewrite IH by (intros; apply Hpure; right; assumption).
  reflexivity.
Qed.

(** C6. Once the [list] action is accessible, [search] makes one [find] call:
    with the filter that binds the title property to the query term when the
    term is non-empty and the empty filter otherwise, with limit 50 and sorted
    ascending by the title property.  So, with a [find] that honours its
    options, what [search] returns has at most 50 entries and is, entry by
    entry, the serialisation of records in ascending title order. *)
Theorem search_asks_for_fifty_sorted_by_title
    (this : Controller) request (w w1 w2 : World) resource listAction
    (Hresource : AdminBro_findResource (_admin this) (resourceId (params request)) w
                 = (Ok resource, w1))
    (Hlist : actions (BaseResource_decorate resource) !! "list" = Some listAction)
    (Hallowed : Action_isAccessible listAction (currentAdmin this) RNull w1
                = (Ok true, w2)) :
  let title := property_name (titleProperty (BaseResource_decorate resource)) in
  let out := run (search this request) w in
  List.filter is_find_call (calls out)
    = [CallFind resource
         {| filters := query_filter title (query (params request));
            filter_resource := resource |}
         {| limit := 50; sort := {| sortBy := title; direction := asc |} |}]
  /\ forall ord, find_honours_options ord ->
     forall v, result out = Ok v ->
     exists records jsons,
       v = JObject [("records", JArray jsons)]
       /\ length jsons <= 50
       /\ Sorted (ord title asc) records
       /\ Forall2 (fun r j => exists w0 w',
                     BaseRecord_toJSON r (currentAdmin this) w0 = (Ok j, w'))
                  records jsons.
Proof.
  intros title out.
  pose proof (search_allowed this request w w1 w2 resource listAction
                Hresource Hlist Hallowed) as Hrun.
  cbv zeta in Hrun. fold title in Hrun. fold out in Hrun.
  destruct (BaseResource_find resource _ _ w2) as [[records|e] w3] eqn:Hfind.
  - destruct (toJSON_each (currentAdmin this) records w3) as [[jsons|e] w4] eqn:Heach.
    + destruct Hrun as (Hres & _ & Hcalls). split.
      * rewrite Hcalls, List.filter_app, toJSON_calls_are_no_find_calls. reflexivity.
      * intros ord Hhonours v Hv. rewrite Hres in Hv. injection Hv as <-.
        destruct (Hhonours _ _ _ _ _ _ Hfind) as [Hlimit Hsorted]. cbn in Hlimit, Hsorted.
        pose proof (toJSON_each_pointwise _ _ _ _ _ Heach) as Heach'.
        exists records, jsons. repeat split; try assumption.
        rewrite <- (Forall2_length _ _ _ Heach'). exact Hlimit.
    + destruct Hrun as (Hres & _ & n & Hcalls). split.
      * rewrite Hcalls, List.filter_app, toJSON_calls_are_no_find_calls. reflexivity.
      * intros ord _ v Hv. rewrite Hres in Hv. discriminate.
  - destruct Hrun as (Hres & _ & Hcalls). split.
    + rewrite Hcalls. reflexivity.
    + intros ord _ v Hv. rewrite Hres in Hv. discriminate.
Qed.

(** C7 (as the code has it). [search] hands back, under [records] and in the
    order [find] returned them, what each record's own [toJSON] answers for
    the current admin: the value is passed on as it is, with whatever fields
    the serialiser put there.  The world is touched by the four collaborators
    [search] calls and by nothing else. *)
Theorem search_returns_each_record_serialised
    (this : Controller) request (w w1 w2 w3 w4 : World) resource listAction
    records jsons
    (Hresource : AdminBro_findResource (_admin this) (resourceId (params request)) w
                 = (Ok resource, w1))
    (Hlist : actions (BaseResource_decorate resource) !! "list" = Some listAction)
    (Hallowed : Action_isAccessible listAction (currentAdmin this) RNull w1
                = (Ok true, w2))
    (Hfound : let title := property_name (titleProperty (BaseResource_decorate resource)) in
              BaseResource_find resource
                {| filters := query_filter title (query (params request));
                   filter_resource := resource |}
                {| limit := 50; sort := {| sortBy := title; direction := asc |} |} w2
              = (Ok records, w3))
    (Hserialised : toJSON_each (currentAdmin this) records w3 = (Ok jsons, w4)) :
  let out := run (search this request) w in
  let who := currentAdmin this in
  result out = Ok (JObject [("records", JArray jsons)])
  /\ Forall2 (fun r j => exists w0 w', BaseRecord_toJSON r who w0 = (Ok j, w'))
             records jsons
  /\ (forall json_of,
        (forall r w0, In r records -> BaseRecord_toJSON r who w0 = (Ok (json_of r), w0)) ->
        jsons = map json_of records /\ w4 = w3)
  /\ final out = w4
  /\ calls out
     = [CallFindResource (_admin this) (resourceId (params request));
        CallIsAccessible listAction who RNull;
        CallFind resource
          {| filters := query_filter
                          (property_name (titleProperty (BaseResource_decorate resource)))
                          (query (params request));
             filter_resource := resource |}
          {| limit := 50;
             sort := {| sortBy := property_name
                                    (titleProperty (BaseResource_decorate resource));
                        direction := asc |} |}]
       ++ map (fun r => CallToJSON r who) records.
Proof.
  intros out who.
  pose proof (search_allowed this request w w1 w2 resource listAction
                Hresource Hlist Hallowed) as Hrun.
  cbv zeta in Hrun, Hfound. rewrite Hfound in Hrun. fold who in Hrun.
  unfold who in Hserialised. fold who in Hserialised. rewrite Hserialised in Hrun.
  fold out in Hrun. destruct Hrun as (Hres & Hfinal & Hcalls).
  split; [exact Hres|]. split; [|split; [|split; [exact Hfinal | exact Hcalls]]].
  - eapply toJSON_each_pointwise. exact Hserialised.
  - intros json_of Hread_only.
    pose proof (toJSON_each_read_only who records json_of w3 Hread_only) as Hpure.
    rewrite Hserialised in Hpure. split; congruence.
Qed.

(** ** Record actions *)

Lemma truthy_get_prop v key :
  truthy v = true -> get_prop v key = Ok (field v key).
Proof. destruct v; cbn; try discriminate; reflexivity. Qed.

(** The chain of [&&] never reads a property of [undefined] or [null]: it
    always has a value, and the value is truthy exactly when every link is. *)
Lemma recordActions_of_checked json :
  exists checked,
    recordActions_of json = Ok checked /\ truthy checked = recordActions_truthy json.
Proof.
  unfold recordActions_of, recordActions_truthy, js_and.
  destruct (truthy json) eqn:Hjson.
  - rewrite (truthy_get_prop _ _ Hjson).
    destruct (truthy (field json "record")) eqn:Hrecord.
    + rewrite (truthy_get_prop _ _ Hrecord). eexists. split; reflexivity.
    + eexists. split; [reflexivity | exact Hrecord].
  - rewrite Hjson. eexists. split; [reflexivity | exact Hjson].
Qed.

Lemma truthy_own_property props key :
  truthy (own_property props key) = true ->
  existsb (fun kv => String.eqb (fst kv) key) props = true.
Proof.
  induction props as [|[k v] rest IH]; cbn; [discriminate|].
  destruct (String.eqb k key); cbn; auto.
Qed.

(** A truthy [record.recordActions] is in particular present. *)
Lemma recordActions_truthy_present json :
  recordActions_truthy json = true -> contains_recordActions_field json = true.
Proof.
  unfold recordActions_truthy, contains_recordActions_field.
  intros Htruthy. apply andb_prop in Htruthy as [Htruthy Hactions].
  apply andb_prop in Htruthy as [_ Hrecord].
  apply andb_true_intro. split.
  - destruct json; cbn in *; try discriminate.
    apply truthy_own_property, Hrecord.
  - destruct (field json "record"); cbn in *; try discriminate.
    apply truthy_own_property, Hactions.
Qed.

(** What [recordAction] does once the action is accessible. *)
Lemma recordAction_allowed
    (this : Controller) request response (w w1 w2 w3 w4 : World)
    resource act record populated
    (Hresource : AdminBro_findResource (_admin this) (resourceId (params request)) w
                 = (Ok resource, w1))
    (Haction : actions (BaseResource_decorate resource)
                 !! property_key (action (params request)) = Some act)
    (Hfound : BaseResource_findOne resource (recordId (params request)) w1
              = (Ok record, w2))
    (Hpopulated : populator [record] w2 = (Ok populated, w3))
    (Hallowed : Action_isAccessible act (currentAdmin this) (first_element populated) w3
                = (Ok true, w4)) :
  let target := first_element populated in
  let context := with_record (context_of this resource (Some act)) target in
  let made := [CallFindResource (_admin this) (resourceId (params request));
               CallFindOne resource (recordId (params request));
               CallPopulator [record];
               CallIsAccessible act (currentAdmin this) target;
               CallHandler act request response context] in
  let out := run (recordAction this request response) w in
  calls out = made
  /\ final out = snd (Action_handler act request response context w4)
  /\ result out =
       match fst (Action_handler act request response context w4) with
       | Ok json =>
           if recordActions_truthy json then Ok json
           else Throw (ConfigurationError
                         "handler of a recordAction should return a RecordJSON object"
                         "Action.handler")
       | Throw e => Throw e
       end.
Proof.
  unfold_controller.
  rewrite Hresource. cbn. rewrite Hfound. cbn. rewrite Hpopulated. cbn.
  rewrite Haction. cbn. rewrite Hallowed. cbn.
  unfold context_of, with_record. cbn.
  destruct (Action_handler act request response _ w4) as [[json|e] w5]; cbn; [|auto].
  destruct (recordActions_of_checked json) as (checked & -> & ->).
  destruct (recordActions_truthy json); cbn; auto.
Qed.

(** C3 (as the code has it). When the handler of a record action completes
    with a result, the call fails with
    [ConfigurationError("handler of a recordAction should return a RecordJSON object", "Action.handler")]
    if the result has no [record] field holding a [recordActions] field, and
    more generally if the result, its [record] or its [record.recordActions]
    is falsy; the handler's value is then not part of the outcome.  When all
    three are truthy the handler's result is returned unchanged. *)
Theorem recordAction_validates_handler_result
    (this : Controller) request response (w w1 w2 w3 w4 w5 : World)
    resource act record populated json
    (Hresource : AdminBro_findResource (_admin this) (resourceId (params request)) w
                 = (Ok resource, w1))
    (Haction : actions (BaseResource_decorate resource)
                 !! property_key (action (params request)) = Some act)
    (Hfound : BaseResource_findOne resource (recordId (params request)) w1
              = (Ok record, w2))
    (Hpopulated : populator [record] w2 = (Ok populated, w3))
    (Hallowed : Action_isAccessible act (currentAdmin this) (first_element populated) w3
                = (Ok true, w4))
    (Hhandled : Action_handler act request response
                  (with_record (context_of this resource (Some act))
                               (first_element populated)) w4
                = (Ok json, w5)) :
  let out := run (recordAction this request response) w in
  let failure :=
    Throw (ConfigurationError
             "handler of a recordAction should return a RecordJSON object"
             "Action.handler") in
  (contains_recordActions_field json = false -> result out = failure)
  /\ (recordActions_truthy json = false -> result out = failure)
  /\ (recordActions_truthy json = true -> result out = Ok json)
  /\ final out = w5.
Proof.
  intros out failure.
  destruct (recordAction_allowed this request response w w1 w2 w3 w4
              resource act record populated
              Hresource Haction Hfound Hpopulated Hallowed)
    as (_ & Hfinal & Hresult).
  fold out in Hfinal, Hresult. rewrite Hhandled in Hfinal, Hresult. cbn in Hfinal, Hresult.
  repeat split.
  - intros Hlacks. rewrite Hresult.
    destruct (recordActions_truthy json) eqn:Htruthy; [|reflexivity].
    apply recordActions_truthy_present in Htruthy. congruence.
  - intros Hfalsy. rewrite Hresult, Hfalsy. reflexivity.
  - intros Htruthy. rewrite Hresult, Htruthy. reflexivity.
  - exact Hfinal.
Qed.

(** C10. The shape check of [recordAction] is a truthiness test of the
    handler's result, of its [record] and of its [record.recordActions]: a
    result that is [null] or [undefined], a falsy [record], and a
    [recordActions] that is present but falsy all fail with the same
    [ConfigurationError] as a missing field. *)
Theorem recordAction_shape_check_is_truthiness
    (this : Controller) request response (w w1 w2 w3 w4 w5 : World)
    resource act record populated json
    (Hresource : AdminBro_findResource (_admin this) (resourceId (params request)) w
                 = (Ok resource, w1))
    (Haction : actions (BaseResource_decorate resource)
                 !! property_key (action (params request)) = Some act)
    (Hfound : BaseResource_findOne resource (recordId (params request)) w1
              = (Ok record, w2))
    (Hpopulated : populator [record] w2 = (Ok populated, w3))
    (Hallowed : Action_isAccessible act (currentAdmin this) (first_element populated) w3
                = (Ok true, w4))
    (Hhandled : Action_handler act request response
                  (with_record (context_of this resource (Some act))
                               (first_element populated)) w4
                = (Ok json, w5)) :
  let out := run (recordAction this request response) w in
  let failure :=
    Throw (ConfigurationError
             "handler of a recordAction should return a RecordJSON object"
             "Action.handler") in
  result out =
    (if truthy json && truthy (field json "record")
        && truthy (field (field json "record") "recordActions")
     then Ok json else failure)
  /\ (json = JNull \/ json = JUndefined -> result out = failure)
  /\ (truthy (field json "record") = false -> result out = failure)
  /\ (has_property (field json "record") "recordActions" = true ->
      truthy (field (field json "record") "recordActions") = false ->
      result out = failure).
Proof.
  intros out failure.
  destruct (recordAction_allowed this request response w w1 w2 w3 w4
              resource act record populated
              Hresource Haction Hfound Hpopulated Hallowed)
    as (_ & _ & Hresult).
  fold out in Hresult. rewrite Hhandled in Hresult. cbn in Hresult.
  unfold recordActions_truthy in Hresult. fold failure in Hresult.
  repeat split.
  - exact Hresult.
  - intros [-> | ->]; exact Hresult.
  - intros Hfalsy. rewrite Hresult, Hfalsy, andb_false_r. reflexivity.
  - intros _ Hfalsy. rewrite Hresult, Hfalsy, andb_false_r. reflexivity.
Qed.

(** C2. In every run of [recordAction] the accessibility check is made at
    most once, and when it is made the calls before it are exactly the
    resource lookup, [findOne], and the populator applied to what [findOne]
    answered ([null] included); the record checked is the populator's, and
    the only call after the check is the handler's, whose context has under
    [record] that very record (and the resource, action, admin and current
    admin of the request).  When the lookups and the populator succeed the
    check is made exactly once. *)
Theorem recordAction_populates_then_checks_once
    (this : Controller) request response (w : World) :
  let out := run (recordAction this request response) w in
  let who := currentAdmin this in
  (length (List.filter is_isAccessible_call (calls out)) <= 1
   /\ forall before act who' target after,
        calls out = before ++ CallIsAccessible act who' target :: after ->
        who' = who
        /\ exists resource record w1 w2 populated w3,
             before = [CallFindResource (_admin this) (resourceId (params request));
                       CallFindOne resource (recordId (params request));
                       CallPopulator [record]]
             /\ AdminBro_findResource (_admin this) (resourceId (params request)) w
                = (Ok resource, w1)
             /\ BaseResource_findOne resource (recordId (params request)) w1
                = (Ok record, w2)
             /\ populator [record] w2 = (Ok populated, w3)
             /\ target = first_element populated
             /\ (after = [] \/
                 exists context,
                   after = [CallHandler act request response context]
                   /\ ctx_record context = Some target
                   /\ ctx_resource context = resource
                   /\ ctx_action context = Some act
                   /\ ctx_h context = {| helpers_admin := _admin this |}
                   /\ ctx_currentAdmin context = who
                   /\ ctx__admin context = _admin this))
  /\ (forall w1 w2 w3 resource act record populated,
        AdminBro_findResource (_admin this) (resourceId (params request)) w
          = (Ok resource, w1) ->
        actions (BaseResource_decorate resource)
          !! property_key (action (params request)) = Some act ->
        BaseResource_findOne resource (recordId (params request)) w1 = (Ok record, w2) ->
        populator [record] w2 = (Ok populated, w3) ->
        length (List.filter is_isAccessible_call (calls out)) = 1).
Proof.
  intros out who. split.
  - subst out. unfold_controller.
    destruct (AdminBro_findResource _ _ w) as [[resource|e] w1] eqn:Hresource; cbn.
    2: { split; [lia|]. intros before ? ? ? ? Heq.
         repeat (destruct before as [|? before]; simplify_eq/=). }
    destruct (BaseResource_findOne resource _ w1) as [[record|e] w2] eqn:Hfound; cbn.
    2: { split; [lia|]. intros before ? ? ? ? Heq.
         repeat (destruct before as [|? before]; simplify_eq/=). }
    destruct (populator [record] w2) as [[populated|e] w3] eqn:Hpopulated; cbn.
    2: { split; [lia|]. intros before ? ? ? ? Heq.
         repeat (destruct before as [|? before]; simplify_eq/=). }
    destruct (actions _ !! _) as [act|] eqn:Haction; cbn.
    2: { split; [lia|]. intros before ? ? ? ? Heq.
         repeat (destruct before as [|? before]; simplify_eq/=). }
    assert (Hhandled : forall context json,
      context = with_record (context_of this resource (Some act))
                            (first_element populated) ->
      [CallHandler act request response context] = json ->
      json = [] \/
      exists context',
        json = [CallHandler act request response context']
        /\ ctx_record context' = Some (first_element populated)
        /\ ctx_resource context' = resource
        /\ ctx_action context' = Some act
        /\ ctx_h context' = {| helpers_admin := _admin this |}
        /\ ctx_currentAdmin context' = who
        /\ ctx__admin context' = _admin this).
    { intros context json -> <-. right. eexists. repeat split. }
    destruct (Action_isAccessible act _ _ w3) as [[[|]|e] w4] eqn:Hchecked; cbn.
    + unfold context_of, with_record in *; cbn in *.
      destruct (Action_handler act request response _ w4) as [[json|e] w5]; cbn.
      * destruct (recordActions_of_checked json) as (checked & -> & _).
        destruct (truthy checked); cbn;
          (split; [lia|]; intros before ? ? ? ? Heq;
           repeat (destruct before as [|? before]; simplify_eq/=);
           split; [reflexivity|]; do 6 eexists;
           repeat (split; [eassumption || reflexivity|]);
           eapply Hhandled; reflexivity).
      * split; [lia|]. intros before ? ? ? ? Heq.
        repeat (destruct before as [|? before]; simplify_eq/=).
        split; [reflexivity|]. do 6 eexists.
        repeat (split; [eassumption || reflexivity|]).
        eapply Hhandled; reflexivity.
    + split; [lia|]. intros before ? ? ? ? Heq.
      repeat (destruct before as [|? before]; simplify_eq/=).
      split; [reflexivity|]. do 6 eexists.
      repeat (split; [eassumption || reflexivity|]). left. reflexivity.
    + split; [lia|]. intros before ? ? ? ? Heq.
      repeat (destruct before as [|? before]; simplify_eq/=).
      split; [reflexivity|]. do 6 eexists.
      repeat (split; [eassumption || reflexivity|]). left. reflexivity.
  - intros w1 w2 w3 resource act record populated Hresource Haction Hfound Hpopulated.
    subst out. unfold_controller.
    rewrite Hresource. cbn. rewrite Hfound. cbn. rewrite Hpopulated. cbn.
    rewrite Haction. cbn.
    destruct (Action_isAccessible act _ _ w3) as [[[|]|e] w4]; cbn; try reflexivity.
    destruct (Action_handler act request response _ w4) as [[json|e] w5]; cbn;
      [|reflexivity].
    destruct (recordActions_of_checked json) as (checked & -> & _).
    destruct (truthy checked); reflexivity.
Qed.

(** ** Building the context *)

(** C4 (as the code has it). Context building looks the resource up and fails
    with whatever [findResource] throws for an id it does not know (its
    [NotFoundError]), and so do [resourceAction] and [recordAction].  An
    action name that is not registered is not an error of context building:
    the context is built with an undefined action, and [resourceAction] and
    [recordAction] then fail with a TypeError when they reach for its
    [isAccessible], not with [NotFoundError]. *)
Theorem context_building_checks_the_resource_only
    (this : Controller) request response (w : World) :
  (forall e w1,
     AdminBro_findResource (_admin this) (resourceId (params request)) w
       = (Throw e, w1) ->
     result (run (getActionContext this request) w) = Throw e
     /\ result (run (resourceAction this request response) w) = Throw e
     /\ result (run (recordAction this request response) w) = Throw e)
  /\
  (forall resource w1,
     AdminBro_findResource (_admin this) (resourceId (params request)) w
       = (Ok resource, w1) ->
     actions (BaseResource_decorate resource)
       !! property_key (action (params request)) = None ->
     result (run (getActionContext this request) w)
       = Ok (context_of this resource None)
     /\ result (run (resourceAction this request response) w)
        = Throw (TypeError "isAccessible")
     /\ forall record w2 populated w3,
          BaseResource_findOne resource (recordId (params request)) w1
            = (Ok record, w2) ->
          populator [record] w2 = (Ok populated, w3) ->
          result (run (recordAction this request response) w)
            = Throw (TypeError "isAccessible")).
Proof.
  split.
  - intros e w1 Hunknown. unfold_controller. rewrite Hunknown. cbn. auto.
  - intros resource w1 Hresource Hunregistered.
    unfold_controller. rewrite Hresource. cbn. rewrite Hunregistered. cbn.
    unfold context_of. repeat split.
    intros record w2 populated w3 Hfound Hpopulated.
    rewrite Hfound. cbn. rewrite Hpopulated. reflexivity.
Qed.

(** ** The dashboard *)

(** C8 (as the code has it). With no dashboard handler configured (no
    [dashboard] option, or one without a [handler]) [dashboard] returns a
    payload with the one field [message], a fixed sentence that starts "You
    can override this method by setting up dashboard.handler" and ends "in
    AdminBro options": the same sentence whoever asks and whatever the
    request.  It does not throw, calls no collaborator and leaves the world as
    it was. *)
Theorem dashboard_without_handler_returns_fallback :
  exists word : string,
  forall (this : Controller) request response (w : World),
    options_dashboard (AdminBro_options (_admin this)) = None
    \/ (exists d, options_dashboard (AdminBro_options (_admin this)) = Some d
                  /\ dashboard_handler d = None) ->
    run (dashboard this request response) w
    = (Ok (JObject [("message",
             JString ("You can override this method by setting up dashboard.handler "
                      +:+ word +:+ " in AdminBro options"))]),
       {| world := w; trace := [] |}).
Proof.
  exists "fuction". intros this request response w Hnone.
  unfold run, dashboard.
  destruct Hnone as [-> | (d & -> & ->)]; reflexivity.
Qed.

(** * Further properties of the controller *)

(** ** Search: what it does when something is missing or fails *)

(** X2. In every run of [search]: if [find] was called, or a result was
    returned, then the resource was found, it has a [list] action, and that
    action's check (about [null]) answered true. *)
Lemma search_finds_only_after_list_access_is_granted
    (this : Controller) request (w : World) :
  let out := run (search this request) w in
  existsb is_find_call (calls out) = true \/ (exists v, result out = Ok v) ->
  exists resource w1 listAction w2,
    AdminBro_findResource (_admin this) (resourceId (params request)) w
      = (Ok resource, w1)
    /\ actions (BaseResource_decorate resource) !! "list" = Some listAction
    /\ Action_isAccessible listAction (currentAdmin this) RNull w1 = (Ok true, w2).
Proof.
  unfold_controller.
  destruct (AdminBro_findResource _ _ w) as [[resource|e] w1] eqn:Hresource; cbn.
  2: { intros [Hfind | [v Hv]]; discriminate. }
  destruct (actions _ !! "list") as [listAction|] eqn:Hlist; cbn.
  2: { intros [Hfind | [v Hv]]; discriminate. }
  destruct (Action_isAccessible listAction _ _ w1) as [[[|]|e] w2] eqn:Hchecked; cbn.
  - intros _. exists resource, w1, listAction, w2. auto.
  - intros [Hfind | [v Hv]]; discriminate.
  - intros [Hfind | [v Hv]]; discriminate.
Qed.

(** X3. A resource whose decoration has no [list] action cannot be searched:
    [search] fails with a TypeError on reading [isAccessible], having called
    nothing but the resource lookup. *)
Lemma search_without_a_list_action_is_a_TypeError
    (this : Controller) request (w w1 : World) resource
    (Hresource : AdminBro_findResource (_admin this) (resourceId (params request)) w
                 = (Ok resource, w1))
    (Hnolist : actions (BaseResource_decorate resource) !! "list" = None) :
  run (search this request) w
  = (Throw (TypeError "isAccessible"),
     {| world := w1;
        trace := [CallFindResource (_admin this) (resourceId (params request))] |}).
Proof.
  unfold_controller. rewrite Hresource. cbn. rewrite Hnolist. reflexivity.
Qed.

(** X4. A failure of the resource lookup, of the [list] check or of [find] is
    the failure of [search], unchanged, and [search] makes no call after the
    one that failed. *)
Lemma search_propagates_collaborator_failures
    (this : Controller) request (w : World) :
  let id := resourceId (params request) in
  let who := currentAdmin this in
  (forall e w1,
     AdminBro_findResource (_admin this) id w = (Throw e, w1) ->
     run (search this request) w
     = (Throw e, {| world := w1; trace := [CallFindResource (_admin this) id] |}))
  /\
  (forall resource w1 listAction e w2,
     AdminBro_findResource (_admin this) id w = (Ok resource, w1) ->
     actions (BaseResource_decorate resource) !! "list" = Some listAction ->
     Action_isAccessible listAction who RNull w1 = (Throw e, w2) ->
     run (search this request) w
     = (Throw e, {| world := w2;
                    trace := [CallFindResource (_admin this) id;
                              CallIsAccessible listAction who RNull] |}))
  /\
  (forall resource w1 listAction w2 e w3,
     let title := property_name (titleProperty (BaseResource_decorate resource)) in
     let flt := {| filters := query_filter title (query (params request));
                   filter_resource := resource |} in
     let opts := {| limit := 50; sort := {| sortBy := title; direction := asc |} |} in
     AdminBro_findResource (_admin this) id w = (Ok resource, w1) ->
     actions (BaseResource_decorate resource) !! "list" = Some listAction ->
     Action_isAccessible listAction who RNull w1 = (Ok true, w2) ->
     BaseResource_find resource flt opts w2 = (Throw e, w3) ->
     result (run (search this request) w) = Throw e
     /\ final (run (search this request) w) = w3
     /\ calls (run (search this request) w)
        = [CallFindResource (_admin this) id;
           CallIsAccessible listAction who RNull;
           CallFind resource flt opts]).
Proof.
  intros id who. split; [|split].
  - intros e w1 Hfailed. unfold_controller. fold id. rewrite Hfailed. reflexivity.
  - intros resource w1 listAction e w2 Hresource Hlist Hfailed. unfold_controller.
    fold id. rewrite Hresource. cbn. rewrite Hlist. cbn. fold who. rewrite Hfailed.
    reflexivity.
  - intros resource w1 listAction w2 e w3 title flt opts Hresource Hlist Hallowed Hfailed.
    pose proof (search_allowed this request w w1 w2 resource listAction
                  Hresource Hlist Hallowed) as Hrun.
    cbv zeta in Hrun. fold title flt opts in Hrun. rewrite Hfailed in Hrun. exact Hrun.
Qed.

Lemma mapM_toJSON_stops who before failing after (st : State) jsons w4 e w5 :
  toJSON_each who before (world st) = (Ok jsons, w4) ->
  BaseRecord_toJSON failing who w4 = (Throw e, w5) ->
  mapM (fun record => call (CallToJSON record who) (BaseRecord_toJSON record who))
       (before ++ failing :: after) st
  = (Throw e,
     {| world := w5;
        trace := trace st ++ map (fun r => CallToJSON r who) (before ++ [failing]) |}).
Proof.
  revert st jsons. induction before as [|x rest IH]; intros st jsons; cbn.
  - intros [= <- <-] Hfailing. unfold bind, call. rewrite Hfailing. reflexivity.
  - destruct (BaseRecord_toJSON x who (world st)) as [[j|e'] w'] eqn:Hx; [|discriminate].
    destruct (toJSON_each who rest w') as [[js|e'] w''] eqn:Hrest; [|discriminate].
    intros [= <- <-] Hfailing. unfold bind at 1, call at 1. rewrite Hx.
    unfold bind at 1.
    rewrite (IH {| world := w'; trace := trace st ++ [CallToJSON x who] |} js Hrest Hfailing).
    cbn. rewrite <- app_assoc. reflexivity.
Qed.

(** X5. [search] serialises the records in order and stops at the first
    record whose [toJSON] throws: that failure is the failure of [search], the
    records after it are never serialised, and nothing is returned of the
    ones before it. *)
Lemma search_stops_at_the_first_failing_serialisation
    (this : Controller) request (w w1 w2 w3 w4 w5 : World) resource listAction
    before failing after jsons e
    (Hresource : AdminBro_findResource (_admin this) (resourceId (params request)) w
                 = (Ok resource, w1))
    (Hlist : actions (BaseResource_decorate resource) !! "list" = Some listAction)
    (Hallowed : Action_isAccessible listAction (currentAdmin this) RNull w1
                = (Ok true, w2))
    (Hfound : let title := property_name (titleProperty (BaseResource_decorate resource)) in
              BaseResource_find resource
                {| filters := query_filter title (query (params request));
                   filter_resource := resource |}
                {| limit := 50; sort := {| sortBy := title; direction := asc |} |} w2
              = (Ok (before ++ failing :: after), w3))
    (Hbefore : toJSON_each (currentAdmin this) before w3 = (Ok jsons, w4))
    (Hfailing : BaseRecord_toJSON failing (currentAdmin this) w4 = (Throw e, w5)) :
  let out := run (search this request) w in
  result out = Throw e
  /\ final out = w5
  /\ calls out
     = [CallFindResource (_admin this) (resourceId (params request));
        CallIsAccessible listAction (currentAdmin this) RNull;
        CallFind resource
          {| filters := query_filter
                          (property_name (titleProperty (BaseResource_decorate resource)))
                          (query (params request));
             filter_resource := resource |}
          {| limit := 50;
             sort := {| sortBy := property_name
                                    (titleProperty (BaseResource_decorate resource));
                        direction := asc |} |}]
       ++ map (fun r => CallToJSON r (currentAdmin this)) (before ++ [failing]).
Proof.
  unfold_controller.
  rewrite Hresource. cbn. rewrite Hlist. cbn. rewrite Hallowed. cbn.
  rewrite query_filter_truthy. cbv zeta in Hfound. rewrite Hfound. cbn.
  match goal with
  | |- context [mapM _ _ ?st] =>
      rewrite (mapM_toJSON_stops _ _ _ _ st _ _ _ _ Hbefore Hfailing)
  end.
  cbn. auto.
Qed.

(** X6. [search] reads the resource id and the query of the request and
    nothing else, and a missing query and an empty one are the same to it:
    two requests with the same resource id whose queries give the same filter
    run alike. *)
Lemma search_depends_on_resource_and_query_only
    (this : Controller) request request' (w : World)
    (Hid : resourceId (params request) = resourceId (params request'))
    (Hquery : forall title,
        query_filter title (query (params request))
        = query_filter title (query (params request'))) :
  run (search this request) w = run (search this request') w.
Proof.
  unfold_controller. rewrite Hid.
  destruct (AdminBro_findResource _ _ w) as [[resource|e] w1]; cbn; [|reflexivity].
  destruct (actions _ !! "list") as [listAction|]; cbn; [|reflexivity].
  destruct (Action_isAccessible listAction _ _ w1) as [[[|]|e] w2]; cbn;
    try reflexivity.
  rewrite !query_filter_truthy, Hquery. reflexivity.
Qed.

Lemma toJSON_each_keeps_the_world who records w :
  (forall record, read_only (BaseRecord_toJSON record who)) ->
  snd (toJSON_each who records w) = w.
Proof.
  intros Hread. revert w. induction records as [|x rest IH]; intros w; cbn; [reflexivity|].
  pose proof (Hread x w) as Hx.
  destruct (BaseRecord_toJSON x who w) as [[j|e] w']; cbn in Hx; subst w'; [|reflexivity].
  pose proof (IH w) as Hrest.
  destruct (toJSON_each who rest w) as [[js|e] w'']; cbn in Hrest; subst w''; reflexivity.
Qed.

(** X7. [search] has no state of its own: when the collaborators it calls
    (the resource lookup, the check, [find], [toJSON]) leave the world as it
    was, so does [search], on every request and whether it returns or
    throws. *)
Lemma search_changes_nothing_when_its_collaborators_do_not
    (this : Controller) request (w : World)
    (Hlookup : forall id, read_only (AdminBro_findResource (_admin this) id))
    (Hcheck : forall act target,
        read_only (Action_isAccessible act (currentAdmin this) target))
    (Hfind : forall resource flt opts, read_only (BaseResource_find resource flt opts))
    (Hserialise : forall record, read_only (BaseRecord_toJSON record (currentAdmin this))) :
  final (run (search this request) w) = w.
Proof.
  unfold_controller.
  pose proof (Hlookup (resourceId (params request)) w) as H1.
  destruct (AdminBro_findResource _ _ w) as [[resource|e] w1]; cbn in *; subst w1;
    [|reflexivity].
  destruct (actions _ !! "list") as [listAction|]; cbn; [|reflexivity].
  pose proof (Hcheck listAction RNull w) as H2.
  destruct (Action_isAccessible listAction _ _ w) as [[[|]|e] w2]; cbn in *; subst w2;
    try reflexivity.
  match goal with
  | |- context [BaseResource_find ?r ?f ?o w] => pose proof (Hfind r f o w) as H3
  end.
  destruct (BaseResource_find resource _ _ w) as [[records|e] w3]; cbn in *; subst w3;
    [|reflexivity].
  destruct (mapM _ records _) as [r st'] eqn:Hmap.
  apply mapM_toJSON_outcome in Hmap. cbn in Hmap.
  pose proof (toJSON_each_keeps_the_world (currentAdmin this) records w Hserialise) as H4.
  rewrite Hmap in H4. cbn in H4.
  destruct r; cbn; exact H4.
Qed.

(** ** Actions: what happens when a step before the handler fails *)

(** X8. A check that throws is not a refusal: the error of [isAccessible] is
    the error of [resourceAction] and of [recordAction], not a
    [ForbiddenError], and the handler is not called. *)
Lemma failing_check_is_propagated
    (this : Controller) request response (w w1 : World) resource act
    (Hresource : AdminBro_findResource (_admin this) (resourceId (params request)) w
                 = (Ok resource, w1))
    (Haction : actions (BaseResource_decorate resource)
                 !! property_key (action (params request)) = Some act) :
  (forall e w2,
     Action_isAccessible act (currentAdmin this) RNull w1 = (Throw e, w2) ->
     let out := run (resourceAction this request response) w in
     result out = Throw e
     /\ final out = w2
     /\ existsb is_handler_call (calls out) = false)
  /\
  (forall record w2 populated w3 e w4,
     BaseResource_findOne resource (recordId (params request)) w1 = (Ok record, w2) ->
     populator [record] w2 = (Ok populated, w3) ->
     Action_isAccessible act (currentAdmin this) (first_element populated) w3
       = (Throw e, w4) ->
     let out := run (recordAction this request response) w in
     result out = Throw e
     /\ final out = w4
     /\ existsb is_handler_call (calls out) = false).
Proof.
  split.
  - intros e w2 Hfailed. unfold_controller.
    rewrite Hresource. cbn. rewrite Haction. cbn. rewrite Hfailed. cbn. auto.
  - intros record w2 populated w3 e w4 Hfound Hpopulated Hfailed. unfold_controller.
    rewrite Hresource. cbn. rewrite Hfound. cbn. rewrite Hpopulated. cbn.
    rewrite Haction. cbn. rewrite Hfailed. cbn. auto.
Qed.

(** X9. In [recordAction] a failure of [findOne] or of the populator is the
    failure of the call, whether or not the action exists: nothing is called
    after the step that failed, so neither the check nor the handler runs. *)
Lemma recordAction_lookup_failures_come_before_the_check
    (this : Controller) request response (w w1 : World) resource
    (Hresource : AdminBro_findResource (_admin this) (resourceId (params request)) w
                 = (Ok resource, w1)) :
  (forall e w2,
     BaseResource_findOne resource (recordId (params request)) w1 = (Throw e, w2) ->
     run (recordAction this request response) w
     = (Throw e,
        {| world := w2;
           trace := [CallFindResource (_admin this) (resourceId (params request));
                     CallFindOne resource (recordId (params request))] |}))
  /\
  (forall record w2 e w3,
     BaseResource_findOne resource (recordId (params request)) w1 = (Ok record, w2) ->
     populator [record] w2 = (Throw e, w3) ->
     run (recordAction this request response) w
     = (Throw e,
        {| world := w3;
           trace := [CallFindResource (_admin this) (resourceId (params request));
                     CallFindOne resource (recordId (params request));
                     CallPopulator [record]] |})).
Proof.
  split.
  - intros e w2 Hfailed. unfold_controller.
    rewrite Hresource. cbn. rewrite Hfailed. reflexivity.
  - intros record w2 e w3 Hfound Hfailed. unfold_controller.
    rewrite Hresource. cbn. rewrite Hfound. cbn. rewrite Hfailed. reflexivity.
Qed.

(** X10. With an action name that is not registered, [resourceAction] fails
    right after the resource lookup, but [recordAction] notices only at the
    check: by then it has loaded the record and run the populator, and the
    world is the one they left. *)
Lemma recordAction_loads_the_record_before_it_misses_the_action
    (this : Controller) request response (w w1 w2 w3 : World) resource record populated
    (Hresource : AdminBro_findResource (_admin this) (resourceId (params request)) w
                 = (Ok resource, w1))
    (Hunregistered : actions (BaseResource_decorate resource)
                       !! property_key (action (params request)) = None)
    (Hfound : BaseResource_findOne resource (recordId (params request)) w1
              = (Ok record, w2))
    (Hpopulated : populator [record] w2 = (Ok populated, w3)) :
  run (resourceAction this request response) w
  = (Throw (TypeError "isAccessible"),
     {| world := w1;
        trace := [CallFindResource (_admin this) (resourceId (params request))] |})
  /\ run (recordAction this request response) w
     = (Throw (TypeError "isAccessible"),
        {| world := w3;
           trace := [CallFindResource (_admin this) (resourceId (params request));
                     CallFindOne resource (recordId (params request));
                     CallPopulator [record]] |}).
Proof.
  split; unfold_controller; rewrite Hresource; cbn.
  - rewrite Hunregistered. reflexivity.
  - rewrite Hfound. cbn. rewrite Hpopulated. cbn. rewrite Hunregistered. reflexivity.
Qed.

(** X11. When the populator answers an empty array, the record checked and
    handed to the handler is [undefined] (not [null], and not what [findOne]
    answered). *)
Lemma recordAction_with_an_empty_population_checks_undefined
    (this : Controller) request response (w w1 w2 w3 : World) resource act record
    (Hresource : AdminBro_findResource (_admin this) (resourceId (params request)) w
                 = (Ok resource, w1))
    (Haction : actions (BaseResource_decorate resource)
                 !! property_key (action (params request)) = Some act)
    (Hfound : BaseResource_findOne resource (recordId (params request)) w1
              = (Ok record, w2))
    (Hempty : populator [record] w2 = (Ok [], w3)) :
  let out := run (recordAction this request response) w in
  exists rest,
    calls out = [CallFindResource (_admin this) (resourceId (params request));
                 CallFindOne resource (recordId (params request));
                 CallPopulator [record];
                 CallIsAccessible act (currentAdmin this) RUndefined] ++ rest
    /\ (rest = [] \/
        rest = [CallHandler act request response
                  (with_record (context_of this resource (Some act)) RUndefined)]).
Proof.
  unfold_controller.
  rewrite Hresource. cbn. rewrite Hfound. cbn. rewrite Hempty. cbn.
  rewrite Haction. cbn.
  destruct (Action_isAccessible act _ RUndefined w3) as [[[|]|e] w4]; cbn;
    try solve [exists []; auto].
  unfold context_of, with_record; cbn.
  destruct (Action_handler act request response _ w4) as [[json|e] w5]; cbn.
  - destruct (recordActions_of_checked json) as (checked & -> & _).
    destruct (truthy checked); cbn; (eexists; split; [reflexivity|]; auto).
  - eexists; split; [reflexivity|]; auto.
Qed.

(** X12. A failure of the handler of a record action is the failure of
    [recordAction], unchanged: the result check is not reached, no
    [ConfigurationError] is made of it, and the world is the one the handler
    left. *)
Lemma recordAction_propagates_the_handler_failure
    (this : Controller) request response (w w1 w2 w3 w4 w5 : World)
    resource act record populated e
    (Hresource : AdminBro_findResource (_admin this) (resourceId (params request)) w
                 = (Ok resource, w1))
    (Haction : actions (BaseResource_decorate resource)
                 !! property_key (action (params request)) = Some act)
    (Hfound : BaseResource_findOne resource (recordId (params request)) w1
              = (Ok record, w2))
    (Hpopulated : populator [record] w2 = (Ok populated, w3))
    (Hallowed : Action_isAccessible act (currentAdmin this) (first_element populated) w3
                = (Ok true, w4))
    (Hfailed : Action_handler act request response
                 (with_record (context_of this resource (Some act))
                              (first_element populated)) w4
               = (Throw e, w5)) :
  let out := run (recordAction this request response) w in
  result out = Throw e
  /\ final out = w5
  /\ length (List.filter is_handler_call (calls out)) = 1.
Proof.
  intros out.
  destruct (recordAction_allowed this request response w w1 w2 w3 w4
              resource act record populated
              Hresource Haction Hfound Hpopulated Hallowed)
    as (Hcalls & Hfinal & Hresult).
  fold out in Hcalls, Hfinal, Hresult.
  rewrite Hfailed in Hfinal, Hresult. rewrite Hcalls. auto.
Qed.

(** ** The result check of record actions *)

(** A primitive has no [record] and no [recordActions] to show. *)
Lemma primitive_field_is_undefined v key :
  is_primitive v = true -> key <> "length" -> field v key = JUndefined.
Proof.
  intros Hprimitive Hkey. unfold field.
  destruct v; cbn in *; try reflexivity; try discriminate.
  apply String.eqb_neq in Hkey. rewrite Hkey. reflexivity.
Qed.

(** X13. A handler of a record action that answers a primitive (a string, a
    number, a boolean, however truthy), or an object whose [record] is a
    primitive or missing, gets the [ConfigurationError]: reading [record] or
    [recordActions] of a primitive gives [undefined], never a TypeError. *)
Lemma recordAction_rejects_primitive_results
    (this : Controller) request response (w w1 w2 w3 w4 w5 : World)
    resource act record populated json
    (Hresource : AdminBro_findResource (_admin this) (resourceId (params request)) w
                 = (Ok resource, w1))
    (Haction : actions (BaseResource_decorate resource)
                 !! property_key (action (params request)) = Some act)
    (Hfound : BaseResource_findOne resource (recordId (params request)) w1
              = (Ok record, w2))
    (Hpopulated : populator [record] w2 = (Ok populated, w3))
    (Hallowed : Action_isAccessible act (currentAdmin this) (first_element populated) w3
                = (Ok true, w4))
    (Hhandled : Action_handler act request response
                  (with_record (context_of this resource (Some act))
                               (first_element populated)) w4
                = (Ok json, w5)) :
  let out := run (recordAction this request response) w in
  let failure :=
    Throw (ConfigurationError
             "handler of a recordAction should return a RecordJSON object"
             "Action.handler") in
  (is_primitive json = true -> result out = failure)
  /\ (forall props,
        json = JObject props ->
        is_primitive (own_property props "record") = true ->
        result out = failure).
Proof.
  intros out failure.
  destruct (recordAction_allowed this request response w w1 w2 w3 w4
              resource act record populated
              Hresource Haction Hfound Hpopulated Hallowed)
    as (_ & _ & Hresult).
  fold out in Hresult. rewrite Hhandled in Hresult. cbn in Hresult.
  unfold recordActions_truthy in Hresult. fold failure in Hresult.
  split.
  - intros Hprimitive. rewrite Hresult.
    rewrite (primitive_field_is_undefined json "record" Hprimitive) by discriminate.
    cbn. rewrite andb_false_r. reflexivity.
  - intros props -> Hprimitive. rewrite Hresult.
    change (field (JObject props) "record") with (own_property props "record").
    rewrite (primitive_field_is_undefined _ "recordActions" Hprimitive) by discriminate.
    cbn. rewrite andb_false_r. reflexivity.
Qed.

(** X14. The check asks for nothing of [recordActions] but truthiness: any
    array under [record.recordActions], the empty one included, lets the
    handler's result through unchanged. *)
Lemma recordAction_accepts_any_array_of_recordActions
    (this : Controller) request response (w w1 w2 w3 w4 w5 : World)
    resource act record populated props fields items
    (Hresource : AdminBro_findResource (_admin this) (resourceId (params request)) w
                 = (Ok resource, w1))
    (Haction : actions (BaseResource_decorate resource)
                 !! property_key (action (params request)) = Some act)
    (Hfound : BaseResource_findOne resource (recordId (params request)) w1
              = (Ok record, w2))
    (Hpopulated : populator [record] w2 = (Ok populated, w3))
    (Hallowed : Action_isAccessible act (currentAdmin this) (first_element populated) w3
                = (Ok true, w4))
    (Hhandled : Action_handler act request response
                  (with_record (context_of this resource (Some act))
                               (first_element populated)) w4
                = (Ok (JObject props), w5))
    (Hrecord : own_property props "record" = JObject fields)
    (Hactions : own_property fields "recordActions" = JArray items) :
  result (run (recordAction this request response) w) = Ok (JObject props).
Proof.
  destruct (recordAction_allowed this request response w w1 w2 w3 w4
              resource act record populated
              Hresource Haction Hfound Hpopulated Hallowed)
    as (_ & _ & Hresult).
  rewrite Hhandled in Hresult. cbn in Hresult.
  unfold recordActions_truthy, field in Hresult. cbn in Hresult.
  rewrite Hrecord in Hresult. cbn in Hresult.
  rewrite Hactions in Hresult. exact Hresult.
Qed.

(** ** The dashboard with a handler *)

(** X15. With a dashboard handler configured, [dashboard] calls it once, with
    the request, the response and a context of view helpers, the current
    admin and the admin instance, and its outcome, value or error, is the
    outcome of [dashboard]; no resource is looked up and no access is
    checked. *)
Lemma dashboard_with_a_handler_hands_over
    (this : Controller) request response (w : World) options handler
    (Hoptions : options_dashboard (AdminBro_options (_admin this)) = Some options)
    (Hhandler : dashboard_handler options = Some handler) :
  let context := {| page_h := {| helpers_admin := _admin this |};
                    page_currentAdmin := currentAdmin this;
                    page__admin := _admin this |} in
  let out := run (dashboard this request response) w in
  result out = fst (handler request response context w)
  /\ final out = snd (handler request response context w)
  /\ calls out = [CallDashboardHandler request response context].
Proof.
  unfold run, result, calls, final, dashboard, call.
  rewrite Hoptions, Hhandler. cbn.
  destruct (handler request response _ w) as [outcome w']. cbn. auto.
Qed.

(** ** Construction and context *)

(** X16. A controller made by the constructor builds its contexts from what
    it was given: [getActionContext] asks that admin instance for the
    resource, once, and calls nothing else (no access check); the context it
    returns carries the resource found, the action registered under the
    requested name (none if there is none), view helpers of that admin
    instance, the current admin given, and no record; and it fails only as
    the resource lookup fails. *)
Lemma constructed_controller_builds_its_context
    (options : ControllerOptions AdminBro) (who : CurrentAdmin) request (w : World) :
  let this := constructor options who in
  let id := resourceId (params request) in
  let out := run (getActionContext this request) w in
  calls out = [CallFindResource (admin options) id]
  /\ final out = snd (AdminBro_findResource (admin options) id w)
  /\ (forall context,
        result out = Ok context ->
        fst (AdminBro_findResource (admin options) id w) = Ok (ctx_resource context)
        /\ ctx_action context
           = actions (BaseResource_decorate (ctx_resource context))
               !! property_key (action (params request))
        /\ ctx_h context = {| helpers_admin := admin options |}
        /\ ctx_currentAdmin context = who
        /\ ctx__admin context = admin options
        /\ ctx_record context = None)
  /\ (forall e,
        result out = Throw e ->
        fst (AdminBro_findResource (admin options) id w) = Throw e).
Proof.
  unfold_controller. unfold constructor. cbn.
  destruct (AdminBro_findResource (admin options) _ w) as [[resource|e] w1]; cbn.
  - split; [reflexivity|]. split; [reflexivity|]. split.
    + intros context [= <-]. repeat split.
    + intros e [=].
  - split; [reflexivity|]. split; [reflexivity|]. split.
    + intros context [=].
    + intros e' [= <-]. reflexivity.
Qed.

End Properties.

(** * The properties on the example installation *)

#[local] Existing Instance Example.collaborators.

Lemma example_find_honours_options : find_honours_options Example.by_name.
Proof.
  intros resource flt opts w records w' Hfind. cbn in Hfind. unfold Example.find in Hfind.
  injection Hfind as <- <-. split.
  - rewrite length_take. lia.
  - unfold Example.select.
    destruct (filters flt), (direction (sort opts)); cbn [rev app];
      destruct (limit opts) as [|[|[|[|n]]]]; cbn; repeat constructor.
Qed.

(** A guest asks for the resource action and the record action [show]. *)
Lemma inaccessible_action_is_forbidden_witness :
  let request := Example.request_for "users" (Some "1") (Some "show") None in
  AdminBro_findResource tt "users" 0 = (Ok "users", 0)
  /\ actions (BaseResource_decorate "users") !! "show" = Some "show"
  /\ Action_isAccessible "show" "guest" (RNull : RecordRef Example.User) 0 = (Ok false, 0)
  /\ Action_isAccessible "show" "guest" (RObj Example.ann) 0 = (Ok false, 0)
  /\ result (run (resourceAction Example.guest request tt) 0)
     = Throw (ForbiddenError "show" "users")
  /\ existsb is_handler_call (calls (run (resourceAction Example.guest request tt) 0)) = false
  /\ result (run (recordAction Example.guest request tt) 0)
     = Throw (ForbiddenError "show" "users")
  /\ existsb is_handler_call (calls (run (recordAction Example.guest request tt) 0)) = false.
Proof.
  intros request.
  destruct (inaccessible_action_is_forbidden (collaborators := Example.collaborators) Example.guest request tt 0 0 "users" "show"
              eq_refl eq_refl) as [Hresource Hrecord].
  destruct (Hresource 0 eq_refl) as [Hforbidden Hquiet].
  destruct (Hrecord (RObj Example.ann) 0 [RObj Example.ann] 0 0 eq_refl eq_refl eq_refl)
    as [Hforbidden' Hquiet'].
  repeat split; assumption || reflexivity.
Defined.

(** The administrator runs [show] on user 1, and on a user that does not
    exist, for which [findOne] answers [null]. *)
Lemma recordAction_populates_then_checks_once_witness :
  let present := Example.request_for "users" (Some "1") (Some "show") None in
  let absent := Example.request_for "users" (Some "9") (Some "show") None in
  (exists context,
     calls (run (recordAction Example.admin present tt) 0)
     = [CallFindResource tt "users"; CallFindOne "users" (Some "1");
        CallPopulator [RObj Example.ann]]
       ++ CallIsAccessible "show" "admin" (RObj Example.ann)
       :: [CallHandler "show" present tt context]
     /\ ctx_record context = Some (RObj Example.ann))
  /\ (exists context,
       calls (run (recordAction Example.admin absent tt) 0)
       = [CallFindResource tt "users"; CallFindOne "users" (Some "9");
          CallPopulator [RNull]]
         ++ CallIsAccessible "show" "admin" RNull
         :: [CallHandler "show" absent tt context]
       /\ ctx_record context = Some RNull)
  /\ length (List.filter is_isAccessible_call
               (calls (run (recordAction Example.admin present tt) 0))) = 1
  /\ length (List.filter is_isAccessible_call
               (calls (run (recordAction Example.admin absent tt) 0))) = 1.
Proof.
  intros present absent.
  destruct (recordAction_populates_then_checks_once
              (collaborators := Example.collaborators) Example.admin present tt 0)
    as [[_ Hpresent] Honce].
  destruct (recordAction_populates_then_checks_once
              (collaborators := Example.collaborators) Example.admin absent tt 0)
    as [[_ Habsent] Honce'].
  split; [|split; [|split]].
  - destruct (Hpresent [CallFindResource tt "users"; CallFindOne "users" (Some "1");
                        CallPopulator [RObj Example.ann]]
                "show" "admin" (RObj Example.ann) _ eq_refl)
      as (? & ? & ? & ? & ? & ? & ? & ? & ? & ? & ? & ? & [Hnone | Hhandler]).
    + discriminate Hnone.
    + destruct Hhandler as (context & Hafter & Hrecord & _).
      exists context. split; [|exact Hrecord].
      cbn [app]. rewrite <- Hafter. reflexivity.
  - destruct (Habsent [CallFindResource tt "users"; CallFindOne "users" (Some "9");
                       CallPopulator [RNull]]
                "show" "admin" RNull _ eq_refl)
      as (? & ? & ? & ? & ? & ? & ? & ? & ? & ? & ? & ? & [Hnone | Hhandler]).
    + discriminate Hnone.
    + destruct Hhandler as (context & Hafter & Hrecord & _).
      exists context. split; [|exact Hrecord].
      cbn [app]. rewrite <- Hafter. reflexivity.
  - exact (Honce 0 0 0 "users" "show" (RObj Example.ann) [RObj Example.ann]
             eq_refl eq_refl eq_refl eq_refl).
  - exact (Honce' 0 0 0 "users" "show" RNull [RNull]
             eq_refl eq_refl eq_refl eq_refl).
Defined.

(** The administrator runs [approve], whose handler answers a record without
    [recordActions]. *)
Lemma recordAction_validates_handler_result_witness :
  let request := Example.request_for "orders" (Some "1") (Some "approve") None in
  let json := JObject [("record", JObject [("id", JString "1")])] in
  contains_recordActions_field json = false
  /\ result (run (recordAction Example.admin request tt) 0)
     = Throw (ConfigurationError
                "handler of a recordAction should return a RecordJSON object"
                "Action.handler").
Proof.
  intros request json.
  destruct (recordAction_validates_handler_result (collaborators := Example.collaborators) Example.admin request tt 0 0 0 0 0 1
              "orders" "approve" (RObj Example.ann) [RObj Example.ann] json
              eq_refl eq_refl eq_refl eq_refl eq_refl eq_refl)
    as (Hlacks & _).
  split; [reflexivity | exact (Hlacks eq_refl)].
Defined.

(** The administrator asks for an action nobody registered. *)
Lemma context_building_checks_the_resource_only_witness :
  let unknown_resource := Example.request_for "files" None (Some "show") None in
  let unknown_action := Example.request_for "users" (Some "1") (Some "publish") None in
  AdminBro_findResource tt "files" 0 = (Throw (NotFoundError "files"), 0)
  /\ result (run (getActionContext Example.admin unknown_resource) 0)
     = Throw (NotFoundError "files")
  /\ actions (BaseResource_decorate "users") !! "publish" = None
  /\ result (run (resourceAction Example.admin unknown_action tt) 0)
     = Throw (TypeError "isAccessible")
  /\ result (run (recordAction Example.admin unknown_action tt) 0)
     = Throw (TypeError "isAccessible").
Proof.
  intros unknown_resource unknown_action.
  destruct (context_building_checks_the_resource_only (collaborators := Example.collaborators) Example.admin unknown_resource tt 0)
    as [Hresource _].
  destruct (context_building_checks_the_resource_only (collaborators := Example.collaborators) Example.admin unknown_action tt 0)
    as [_ Haction].
  destruct (Hresource (NotFoundError "files") 0 eq_refl) as (Hcontext & _ & _).
  destruct (Haction "users" 0 eq_refl eq_refl) as (_ & Hra & Hrec).
  pose proof (Hrec (RObj Example.ann) 0 [RObj Example.ann] 0 eq_refl eq_refl) as Hra'.
  repeat split; assumption || reflexivity.
Defined.

(** A guest searches the users. *)
Lemma search_without_list_access_is_forbidden_witness :
  let request := Example.request_for "users" None None (Some "") in
  actions (BaseResource_decorate "users") !! "list" = Some "list"
  /\ Action_isAccessible "list" "guest" (RNull : RecordRef Example.User) 0 = (Ok false, 0)
  /\ result (run (search Example.guest request) 0) = Throw (ForbiddenError "list" "users")
  /\ existsb is_find_call (calls (run (search Example.guest request) 0)) = false.
Proof.
  intros request.
  destruct (search_without_list_access_is_forbidden (collaborators := Example.collaborators) Example.guest request 0 0 0
              "users" "list" eq_refl eq_refl eq_refl) as (Hforbidden & Hquiet & _).
  repeat split; assumption || reflexivity.
Defined.

(** The administrator searches the users for "Ann". *)
Lemma search_asks_for_fifty_sorted_by_title_witness :
  let request := Example.request_for "users" None None (Some "Ann") in
  let out := run (search Example.admin request) 0 in
  find_honours_options Example.by_name
  /\ List.filter is_find_call (calls out)
     = [CallFind "users" {| filters := [("name", "Ann")]; filter_resource := "users" |}
                 {| limit := 50; sort := {| sortBy := "name"; direction := asc |} |}]
  /\ exists records jsons,
       result out = Ok (JObject [("records", JArray jsons)])
       /\ length jsons <= 50
       /\ Sorted (Example.by_name "name" asc) records.
Proof.
  intros request out.
  destruct (search_asks_for_fifty_sorted_by_title (collaborators := Example.collaborators) Example.admin request 0 0 0
              "users" "list" eq_refl eq_refl eq_refl) as [Hcall Hbounds].
  split; [exact example_find_honours_options|]. split; [exact Hcall|].
  destruct (Hbounds Example.by_name example_find_honours_options _ eq_refl)
    as (records & jsons & Hv & Hlen & Hsorted & _).
  exists records, jsons. rewrite <- Hv. repeat split; assumption || reflexivity.
Defined.

Lemma search_returns_each_record_serialised_witness :
  let request := Example.request_for "users" None None (Some "Ann") in
  let out := run (search Example.admin request) 0 in
  let jsons := [JObject [("params", JObject [("name", JString "Ann A")]);
                         ("id", JString "1"); ("title", JString "Ann A");
                         ("recordActions", JArray [])];
                JObject [("params", JObject [("name", JString "Anna B")]);
                         ("id", JString "2"); ("title", JString "Anna B");
                         ("recordActions", JArray [])]] in
  toJSON_each "admin" [Example.ann; Example.anna] 0 = (Ok jsons, 0)
  /\ result out = Ok (JObject [("records", JArray jsons)])
  /\ final out = 0.
Proof.
  intros request out jsons.
  destruct (search_returns_each_record_serialised (collaborators := Example.collaborators) Example.admin request 0 0 0 0 0
              "users" "list" [Example.ann; Example.anna] jsons
              eq_refl eq_refl eq_refl eq_refl eq_refl)
    as (Hresult & _ & _ & Hfinal & _).
  repeat split; assumption || reflexivity.
Defined.

Lemma dashboard_without_handler_returns_fallback_witness :
  let request := Example.request_for "users" None None None in
  exists word : string,
    options_dashboard (AdminBro_options tt) = Some {| dashboard_handler := None |}
    /\ run (dashboard Example.guest request tt) 7
       = (Ok (JObject [("message",
                JString ("You can override this method by setting up dashboard.handler "
                         +:+ word +:+ " in AdminBro options"))]),
          {| world := 7; trace := [] |})
    /\ run (dashboard Example.admin request tt) 7
       = run (dashboard Example.guest request tt) 7.
Proof.
  intros request.
  destruct (dashboard_without_handler_returns_fallback
              (collaborators := Example.collaborators)) as [word Hfallback].
  assert (Hnone : forall this : ApiController unit string,
             options_dashboard (AdminBro_options (_admin this)) = None
             \/ (exists d, options_dashboard (AdminBro_options (_admin this)) = Some d
                           /\ dashboard_handler d = None)).
  { intros this. right. exists {| dashboard_handler := None |}. split; reflexivity. }
  exists word. split; [reflexivity|]. split.
  - exact (Hfallback Example.guest request tt 7 (Hnone Example.guest)).
  - etransitivity.
    + exact (Hfallback Example.admin request tt 7 (Hnone Example.admin)).
    + symmetry. exact (Hfallback Example.guest request tt 7 (Hnone Example.guest)).
Defined.

(** The administrator exports the users, and runs an action that throws. *)
Lemma resourceAction_passes_handler_outcome_through_witness :
  let export := Example.request_for "users" None (Some "export") None in
  let crash := Example.request_for "users" None (Some "crash") None in
  Action_isAccessible "export" "admin" (RNull : RecordRef Example.User) 0 = (Ok true, 0)
  /\ result (run (resourceAction Example.admin export tt) 0) = Ok (JString "id,name")
  /\ result (run (resourceAction Example.admin crash tt) 0)
     = Throw (Thrown (JString "boom")).
Proof.
  intros export crash.
  destruct (resourceAction_passes_handler_outcome_through (collaborators := Example.collaborators) Example.admin export tt 0 0 0
              "users" "export" eq_refl eq_refl eq_refl) as (Hexport & _).
  destruct (resourceAction_passes_handler_outcome_through (collaborators := Example.collaborators) Example.admin crash tt 0 0 0
              "users" "crash" eq_refl eq_refl eq_refl) as (Hcrash & _).
  repeat split; assumption || reflexivity.
Defined.

(** The administrator archives user 1: the handler answers a record whose
    [recordActions] is [null]. *)
Lemma recordAction_shape_check_is_truthiness_witness :
  let request := Example.request_for "users" (Some "1") (Some "archive") None in
  let json := JObject [("record", JObject [("id", JString "1");
                                           ("title", JString "Ann A");
                                           ("recordActions", JNull)])] in
  has_property (field json "record") "recordActions" = true
  /\ truthy (field (field json "record") "recordActions") = false
  /\ result (run (recordAction Example.admin request tt) 0)
     = Throw (ConfigurationError
                "handler of a recordAction should return a RecordJSON object"
                "Action.handler").
Proof.
  intros request json.
  destruct (recordAction_shape_check_is_truthiness (collaborators := Example.collaborators) Example.admin request tt 0 0 0 0 0 1
              "users" "archive" (RObj Example.ann) [RObj Example.ann] json
              eq_refl eq_refl eq_refl eq_refl eq_refl eq_refl)
    as (_ & _ & _ & Hpresent).
  split; [reflexivity|]. split; [reflexivity|]. exact (Hpresent eq_refl eq_refl).
Defined.

(** ** Where the specification and the code part *)

(** C3, as stated, at a handler result that has [record.recordActions], set to
    [null]: the field is there, and the call fails all the same. *)
Lemma recordAction_rejects_a_present_null_recordActions :
  let request := Example.request_for "users" (Some "1") (Some "archive") None in
  let json := JObject [("record", JObject [("id", JString "1");
                                           ("title", JString "Ann A");
                                           ("recordActions", JNull)])] in
  Action_handler "archive" request tt
    (with_record (context_of Example.admin "users" (Some "archive")) (RObj Example.ann)) 0
    = (Ok json, 1)
  /\ contains_recordActions_field json = true
  /\ result (run (recordAction Example.admin request tt) 0) <> Ok json.
Proof.
  intros request json. split; [reflexivity|]. split; [reflexivity|].
  vm_compute. discriminate.
Qed.

(** C4, as stated, at an action name that is not registered on a registered
    resource: nothing fails with [NotFoundError]. *)
Lemma unknown_action_is_not_a_NotFoundError :
  let request := Example.request_for "users" (Some "1") (Some "publish") None in
  AdminBro_findResource tt "users" 0 = (Ok "users", 0)
  /\ actions (BaseResource_decorate "users") !! "publish" = None
  /\ is_NotFoundError (result (run (getActionContext Example.admin request) 0)) = false
  /\ is_NotFoundError (result (run (resourceAction Example.admin request tt) 0)) = false
  /\ is_NotFoundError (result (run (recordAction Example.admin request tt) 0)) = false.
Proof. vm_compute. repeat split. Qed.

(** C7, as stated, at a search that finds two users: the entries returned are
    the records' whole serialisation, not objects of exactly [id] and
    [title]. *)
Lemma search_entries_are_not_id_and_title_only :
  let request := Example.request_for "users" None None (Some "Ann") in
  exists jsons,
    result (run (search Example.admin request) 0) = Ok (JObject [("records", JArray jsons)])
    /\ forallb SearchRecord_shape jsons = false.
Proof. intros request. eexists. split; [vm_compute; reflexivity|]. reflexivity. Qed.

(** C8, as stated: the payload returned is not the one the specification
    quotes. *)
Lemma dashboard_fallback_is_not_the_quoted_payload :
  let request := Example.request_for "users" None None None in
  options_dashboard (AdminBro_options tt) = Some {| dashboard_handler := None |}
  /\ result (run (dashboard Example.admin request tt) 0) <> Ok spec_dashboard_fallback.
Proof. split; [reflexivity|]. vm_compute. discriminate. Qed.

(** * The further properties on the example installations *)

(** The administrator runs [show] as a resource action and as a record
    action. *)
Lemma handler_runs_only_after_access_is_granted_witness :
  let request := Example.request_for "users" (Some "1") (Some "show") None in
  existsb is_handler_call (calls (run (resourceAction Example.admin request tt) 0)) = true
  /\ (exists resource w1 act w2,
        AdminBro_findResource tt "users" 0 = (Ok resource, w1)
        /\ actions (BaseResource_decorate resource) !! "show" = Some act
        /\ Action_isAccessible act "admin" (RNull : RecordRef Example.User) w1
           = (Ok true, w2))
  /\ existsb is_handler_call (calls (run (recordAction Example.admin request tt) 0)) = true.
Proof.
  intros request.
  destruct (handler_runs_only_after_access_is_granted
              (collaborators := Example.collaborators) Example.admin request tt 0)
    as [Hresource _].
  split; [reflexivity|]. split; [exact (Hresource eq_refl) | reflexivity].
Defined.

Lemma search_finds_only_after_list_access_is_granted_witness :
  let request := Example.request_for "users" None None (Some "Ann") in
  existsb is_find_call (calls (run (search Example.admin request) 0)) = true
  /\ exists resource w1 listAction w2,
       AdminBro_findResource tt "users" 0 = (Ok resource, w1)
       /\ actions (BaseResource_decorate resource) !! "list" = Some listAction
       /\ Action_isAccessible listAction "admin" (RNull : RecordRef Example.User) w1
          = (Ok true, w2).
Proof.
  intros request. split; [reflexivity|].
  apply (search_finds_only_after_list_access_is_granted
           (collaborators := Example.collaborators) Example.admin request 0).
  left. reflexivity.
Defined.

Lemma search_without_a_list_action_is_a_TypeError_witness :
  let installation := Lab.collaborators Lab.NoListAction in
  let request := Example.request_for "users" None None (Some "Ann") in
  actions (BaseResource_decorate (Collaborators := installation) "users") !! "list" = None
  /\ run (search (collaborators := installation) Example.admin request) 0
     = (Throw (TypeError "isAccessible"),
        {| world := 0; trace := [CallFindResource tt "users"] |}).
Proof.
  intros installation request. split; [reflexivity|].
  exact (search_without_a_list_action_is_a_TypeError (collaborators := installation)
           Example.admin request 0 0 "users" eq_refl eq_refl).
Defined.

Lemma search_propagates_collaborator_failures_witness :
  let request := Example.request_for "users" None None (Some "Ann") in
  run (search (collaborators := Lab.collaborators Lab.FindResourceFails)
         Example.admin request) 0
  = (Throw (Lab.failure "registry unavailable"),
     {| world := 0; trace := [CallFindResource tt "users"] |})
  /\ run (search (collaborators := Lab.collaborators Lab.CheckFails)
            Example.admin request) 0
     = (Throw (Lab.failure "policy unavailable"),
        {| world := 0;
           trace := [CallFindResource tt "users"; CallIsAccessible "list" "admin" RNull] |})
  /\ result (run (search (collaborators := Lab.collaborators Lab.FindFails)
                    Example.admin request) 0)
     = Throw (Lab.failure "store unavailable")
  /\ final (run (search (collaborators := Lab.collaborators Lab.FindFails)
                   Example.admin request) 0) = 1.
Proof.
  intros request.
  destruct (search_propagates_collaborator_failures
              (collaborators := Lab.collaborators Lab.FindResourceFails)
              Example.admin request 0) as (Hlookup & _ & _).
  destruct (search_propagates_collaborator_failures
              (collaborators := Lab.collaborators Lab.CheckFails)
              Example.admin request 0) as (_ & Hcheck & _).
  destruct (search_propagates_collaborator_failures
              (collaborators := Lab.collaborators Lab.FindFails)
              Example.admin request 0) as (_ & _ & Hfind).
  split; [exact (Hlookup _ 0 eq_refl)|].
  split; [exact (Hcheck "users" 0 "list" _ 0 eq_refl eq_refl eq_refl)|].
  destruct (Hfind "users" 0 "list" 0 (Lab.failure "store unavailable") 1
              eq_refl eq_refl eq_refl eq_refl) as (Hresult & Hfinal & _).
  split; assumption.
Defined.

(** Three users are found and the second cannot be serialised. *)
Lemma search_stops_at_the_first_failing_serialisation_witness :
  let installation := Lab.collaborators Lab.SecondSerialisationFails in
  let request := Example.request_for "users" None None None in
  let out := run (search (collaborators := installation) Example.admin request) 0 in
  BaseRecord_toJSON (Collaborators := installation) Example.anna "admin" 1
  = (Throw (Lab.failure "cannot serialise"), 1)
  /\ result out = Throw (Lab.failure "cannot serialise")
  /\ existsb (fun ev => match ev with
                        | CallToJSON u _ => String.eqb (Example.user_id u) "3"
                        | _ => false
                        end) (calls out) = false.
Proof.
  intros installation request out.
  destruct (search_stops_at_the_first_failing_serialisation (collaborators := installation)
              Example.admin request 0 0 0 1 1 1 "users" "list"
              [Example.ann] Example.anna [Example.bob]
              [JObject [("params", JObject [("name", JString "Ann A")]);
                        ("id", JString "1"); ("title", JString "Ann A");
                        ("recordActions", JArray [])]]
              (Lab.failure "cannot serialise")
              eq_refl eq_refl eq_refl eq_refl eq_refl eq_refl)
    as (Hresult & _ & Hcalls).
  split; [reflexivity|]. split; [exact Hresult|].
  fold out in Hcalls. rewrite Hcalls. reflexivity.
Defined.

(** A request with no query and one with an empty query, which differ in
    everything else but the resource. *)
Lemma search_depends_on_resource_and_query_only_witness :
  let bare := Example.request_for "users" None None None in
  let busy := {| params := {| resourceId := "users"; recordId := Some "7";
                              action := Some "archive"; query := Some "" |};
                 payload := JString "ignored";
                 method := "post" |} in
  run (search Example.admin bare) 0 = run (search Example.admin busy) 0.
Proof.
  intros bare busy.
  apply (search_depends_on_resource_and_query_only
           (collaborators := Example.collaborators) Example.admin bare busy 0).
  - reflexivity.
  - intros title. reflexivity.
Defined.

Lemma search_changes_nothing_when_its_collaborators_do_not_witness :
  let request := Example.request_for "users" None None (Some "Ann") in
  final (run (search Example.admin request) 5) = 5
  /\ final (run (search Example.guest request) 5) = 5.
Proof.
  intros request.
  assert (Hlookup : forall id, read_only (Example.findResource tt id)).
  { intros id w. unfold Example.findResource. destruct (bool_decide _); reflexivity. }
  split.
  - apply (search_changes_nothing_when_its_collaborators_do_not
             (collaborators := Example.collaborators) Example.admin request 5).
    + exact Hlookup.
    + intros act target w. reflexivity.
    + intros resource flt opts w. reflexivity.
    + intros record w. reflexivity.
  - apply (search_changes_nothing_when_its_collaborators_do_not
             (collaborators := Example.collaborators) Example.guest request 5).
    + exact Hlookup.
    + intros act target w. reflexivity.
    + intros resource flt opts w. reflexivity.
    + intros record w. reflexivity.
Defined.

Lemma failing_check_is_propagated_witness :
  let installation := Lab.collaborators Lab.CheckFails in
  let request := Example.request_for "users" (Some "1") (Some "show") None in
  Action_isAccessible (Collaborators := installation) "show" "admin"
    (RObj Example.ann) 2 = (Throw (Lab.failure "policy unavailable"), 2)
  /\ result (run (resourceAction (collaborators := installation)
                    Example.admin request tt) 0)
     = Throw (Lab.failure "policy unavailable")
  /\ result (run (recordAction (collaborators := installation)
                    Example.admin request tt) 0)
     = Throw (Lab.failure "policy unavailable")
  /\ existsb is_handler_call
       (calls (run (recordAction (collaborators := installation)
                      Example.admin request tt) 0)) = false.
Proof.
  intros installation request.
  destruct (failing_check_is_propagated (collaborators := installation)
              Example.admin request tt 0 0 "users" "show" eq_refl eq_refl)
    as [Hresource Hrecord].
  destruct (Hresource (Lab.failure "policy unavailable") 0 eq_refl) as (Hra & _ & _).
  destruct (Hrecord (RObj Example.ann) 1 [RObj Example.ann] 2
              (Lab.failure "policy unavailable") 2 eq_refl eq_refl eq_refl)
    as (Hrec & _ & Hquiet).
  split; [reflexivity|]. split; [exact Hra|]. split; [exact Hrec | exact Hquiet].
Defined.

Lemma recordAction_lookup_failures_come_before_the_check_witness :
  let request := Example.request_for "users" (Some "1") (Some "show") None in
  run (recordAction (collaborators := Lab.collaborators Lab.FindOneFails)
         Example.admin request tt) 0
  = (Throw (Lab.failure "store unavailable"),
     {| world := 1;
        trace := [CallFindResource tt "users"; CallFindOne "users" (Some "1")] |})
  /\ run (recordAction (collaborators := Lab.collaborators Lab.PopulatorFails)
            Example.admin request tt) 0
     = (Throw (Lab.failure "relation unavailable"),
        {| world := 2;
           trace := [CallFindResource tt "users"; CallFindOne "users" (Some "1");
                     CallPopulator [RObj Example.ann]] |}).
Proof.
  intros request.
  destruct (recordAction_lookup_failures_come_before_the_check
              (collaborators := Lab.collaborators Lab.FindOneFails)
              Example.admin request tt 0 0 "users" eq_refl) as [Hfind _].
  destruct (recordAction_lookup_failures_come_before_the_check
              (collaborators := Lab.collaborators Lab.PopulatorFails)
              Example.admin request tt 0 0 "users" eq_refl) as [_ Hpopulate].
  split.
  - exact (Hfind _ 1 eq_refl).
  - exact (Hpopulate (RObj Example.ann) 1 _ 2 eq_refl eq_refl).
Defined.

(** The administrator asks for [publish], which nobody registered: the store
    has been asked twice by the time [recordAction] fails. *)
Lemma recordAction_loads_the_record_before_it_misses_the_action_witness :
  let installation := Lab.collaborators Lab.NoFault in
  let request := Example.request_for "users" (Some "1") (Some "publish") None in
  actions (BaseResource_decorate (Collaborators := installation) "users") !! "publish"
  = None
  /\ final (run (resourceAction (collaborators := installation)
                   Example.admin request tt) 0) = 0
  /\ run (recordAction (collaborators := installation) Example.admin request tt) 0
     = (Throw (TypeError "isAccessible"),
        {| world := 2;
           trace := [CallFindResource tt "users"; CallFindOne "users" (Some "1");
                     CallPopulator [RObj Example.ann]] |}).
Proof.
  intros installation request.
  destruct (recordAction_loads_the_record_before_it_misses_the_action
              (collaborators := installation) Example.admin request tt 0 0 1 2
              "users" (RObj Example.ann) [RObj Example.ann]
              eq_refl eq_refl eq_refl eq_refl) as [Hresource Hrecord].
  split; [reflexivity|]. split; [|exact Hrecord].
  rewrite Hresource. reflexivity.
Defined.

Lemma recordAction_with_an_empty_population_checks_undefined_witness :
  let installation := Lab.collaborators Lab.PopulatorAnswersNothing in
  let request := Example.request_for "users" (Some "1") (Some "show") None in
  populator (Collaborators := installation) [RObj Example.ann] 1 = (Ok [], 2)
  /\ exists rest,
       calls (run (recordAction (collaborators := installation)
                     Example.admin request tt) 0)
       = [CallFindResource tt "users"; CallFindOne "users" (Some "1");
          CallPopulator [RObj Example.ann];
          CallIsAccessible "show" "admin" RUndefined] ++ rest.
Proof.
  intros installation request. split; [reflexivity|].
  destruct (recordAction_with_an_empty_population_checks_undefined
              (collaborators := installation) Example.admin request tt 0 0 1 2
              "users" "show" (RObj Example.ann) eq_refl eq_refl eq_refl eq_refl)
    as (rest & Hcalls & _).
  exists rest. exact Hcalls.
Defined.

Lemma recordAction_propagates_the_handler_failure_witness :
  let installation := Lab.collaborators Lab.HandlerFails in
  let request := Example.request_for "users" (Some "1") (Some "show") None in
  let out := run (recordAction (collaborators := installation)
                    Example.admin request tt) 0 in
  result out = Throw (Lab.failure "handler broke") /\ final out = 3.
Proof.
  intros installation request out.
  destruct (recordAction_propagates_the_handler_failure (collaborators := installation)
              Example.admin request tt 0 0 1 2 2 3
              "users" "show" (RObj Example.ann) [RObj Example.ann]
              (Lab.failure "handler broke")
              eq_refl eq_refl eq_refl eq_refl eq_refl eq_refl)
    as (Hresult & Hfinal & _).
  split; assumption.
Defined.

(** [export] run as a record action answers a string. *)
Lemma recordAction_rejects_primitive_results_witness :
  let installation := Lab.collaborators Lab.NoFault in
  let request := Example.request_for "users" (Some "1") (Some "export") None in
  is_primitive (JString "done") = true
  /\ truthy (JString "done") = true
  /\ result (run (recordAction (collaborators := installation)
                    Example.admin request tt) 0)
     = Throw (ConfigurationError
                "handler of a recordAction should return a RecordJSON object"
                "Action.handler").
Proof.
  intros installation request.
  destruct (recordAction_rejects_primitive_results
              (collaborators := installation) Example.admin request tt 0 0 1 2 2 2
              "users" "export" (RObj Example.ann) [RObj Example.ann] (JString "done")
              eq_refl eq_refl eq_refl eq_refl eq_refl eq_refl)
    as (Hprimitive & _).
  split; [reflexivity|]. split; [reflexivity|]. exact (Hprimitive eq_refl).
Defined.

(** [show] answers a record with an empty list of record actions. *)
Lemma recordAction_accepts_any_array_of_recordActions_witness :
  let installation := Lab.collaborators Lab.NoFault in
  let request := Example.request_for "users" (Some "1") (Some "show") None in
  result (run (recordAction (collaborators := installation) Example.admin request tt) 0)
  = Ok (JObject [("record", JObject [("id", JString "1"); ("recordActions", JArray [])])]).
Proof.
  intros installation request.
  exact (recordAction_accepts_any_array_of_recordActions (collaborators := installation)
           Example.admin request tt 0 0 1 2 2 2
           "users" "show" (RObj Example.ann) [RObj Example.ann]
           [("record", JObject [("id", JString "1"); ("recordActions", JArray [])])]
           [("id", JString "1"); ("recordActions", JArray [])] []
           eq_refl eq_refl eq_refl eq_refl eq_refl eq_refl eq_refl eq_refl).
Defined.

Lemma dashboard_with_a_handler_hands_over_witness :
  let installation := Lab.collaborators Lab.NoFault in
  let request := Example.request_for "users" None None None in
  let out := run (dashboard (collaborators := installation) Example.guest request tt) 0 in
  result out = Ok (JObject [("widgets", JNumber 0)])
  /\ final out = 1
  /\ existsb is_isAccessible_call (calls out) = false.
Proof.
  intros installation request out.
  destruct (dashboard_with_a_handler_hands_over (collaborators := installation)
              Example.guest request tt 0 {| dashboard_handler := Some Lab.widgets |}
              Lab.widgets eq_refl eq_refl) as (Hresult & Hfinal & Hcalls).
  split; [exact Hresult|]. split; [exact Hfinal|].
  fold out in Hcalls. rewrite Hcalls. reflexivity.
Defined.

Lemma constructed_controller_builds_its_context_witness :
  let request := Example.request_for "users" None (Some "show") None in
  let out := run (getActionContext (constructor {| admin := tt |} "admin") request) 0 in
  calls out = [CallFindResource tt "users"]
  /\ exists context,
       result out = Ok context
       /\ ctx_resource context = "users"
       /\ ctx_action context = Some "show"
       /\ ctx_currentAdmin context = "admin"
       /\ ctx_record context = None.
Proof.
  intros request out.
  destruct (constructed_controller_builds_its_context
              (collaborators := Example.collaborators) {| admin := tt |} "admin" request 0)
    as (Hcalls & _ & Hcontext & _).
  split; [exact Hcalls|].
  eexists. split; [reflexivity|].
  destruct (Hcontext _ eq_refl) as (_ & Haction & _ & Hwho & _ & Hrecord).
  split; [reflexivity|]. split; [exact Haction|]. split; [exact Hwho | exact Hrecord].
Defined.
